(** * pep517.wrappers: the frontend side of the PEP 517 hook protocol

    A shallow embedding of [pep517/wrappers.py]: the backend-path validator
    [norm_and_check], the default subprocess runner, the two generator based
    context managers ([tempdir] and [Pep517HookCaller.subprocess_runner]), the
    five hook methods and the invocation routine [_call_hook].

    Python text is a [string]; a [dict] with string keys that is only built
    and read is a [gmap]; a JSON object keeps its insertion order and is an
    association list; [os.environ], which the runner copies, lives in a store
    of dictionaries addressed by location, so that a copy and an alias are
    different things. *)

From Stdlib Require Import ZArith Ascii String List SpecFloat.
From stdpp Require Import base option list strings gmap fin_maps.

Local Open Scope string_scope.
Local Open Scope Z_scope.

#[local] Set Warnings "-register-all".

(** ** JSON values

    What [json.load] produces: [None], [bool], [int], [float], [str], [list]
    and [dict].  An object is the list of its members in insertion order. *)

Inductive json : Type :=
| JNull
| JBool (b : bool)
| JInt (n : Z)
| JFloat (f : spec_float)
| JStr (s : string)
| JArr (items : list json)
| JObj (members : list (string * json)).

(** Python's truth value of a JSON value ([bool(v)]). *)
Definition truthy (v : json) : bool :=
  match v with
  | JNull => false
  | JBool b => b
  | JInt n => negb (n =? 0)
  | JFloat (S754_zero _) => false
  | JFloat _ => true
  | JStr s => negb (String.eqb s "")
  | JArr items => match items with [] => false | _ => true end
  | JObj members => match members with [] => false | _ => true end
  end.

(** [d.get(key)] on the members of an object; [None] when the key is absent. *)
Fixpoint dict_get (members : list (string * json)) (key : string) : option json :=
  match members with
  | [] => None
  | (k, v) :: rest => if String.eqb k key then Some v else dict_get rest key
  end.

(** [d.get(key, dflt)]. *)
Definition dict_get_default (members : list (string * json)) (key : string)
    (dflt : json) : json :=
  match dict_get members key with
  | Some v => v
  | None => dflt
  end.

(** ** Exceptions and outcomes *)

Inductive exn : Type :=
| ValueError (msg : string)
| BackendUnavailable (traceback : json)
| BackendInvalid (backend_name : string) (backend_path : option (list string))
    (message : json)
| UnsupportedOperation (traceback : json)
| CalledProcessError (returncode : Z) (cmd : list string)
| OSError (msg : string)
| KeyError (key : string)
| AttributeError (msg : string)
| UnicodeEncodeError (codec : string)
| RunnerError (msg : string).

Inductive outcome (A : Type) : Type :=
| Ret (a : A)
| Raise (e : exn).
Arguments Ret {A} a.
Arguments Raise {A} e.

(** ** os.path on a POSIX platform ([posixpath]) *)

Module posixpath.

Definition sep : string := "/".
Definition pathsep : string := ":".

(** [s.split('/')] *)
Fixpoint split (s : string) : list string :=
  match s with
  | EmptyString => [EmptyString]
  | String c s' =>
      if Ascii.eqb c "/"%char then EmptyString :: split s'
      else match split s' with
           | w :: ws => String c w :: ws
           | [] => [String c EmptyString]
           end
  end.

Definition startswith (s p : string) : bool := String.prefix p s.

Fixpoint endswith_sep (s : string) : bool :=
  match s with
  | EmptyString => false
  | String c EmptyString => Ascii.eqb c "/"%char
  | String _ s' => endswith_sep s'
  end.

Definition isabs (s : string) : bool := startswith s sep.

(** [join(a, b)] *)
Definition join (a b : string) : string :=
  if startswith b sep then b
  else if (String.eqb a "" || endswith_sep a)%bool then String.append a b
  else String.append a (String.append sep b).

(** One turn of the loop of [normpath] over the components. *)
Definition normpath_step (initial_slashes : nat) (new_comps : list string)
    (comp : string) : list string :=
  if (String.eqb comp "" || String.eqb comp ".")%bool then new_comps
  else if (negb (String.eqb comp "..")
           || (Nat.eqb initial_slashes 0
               && match new_comps with [] => true | _ => false end)
           || match last new_comps with
              | Some l => String.eqb l ".."
              | None => false
              end)%bool
       then new_comps ++ [comp]
       else match new_comps with
            | [] => new_comps
            | _ => removelast new_comps
            end.

Definition normpath (path : string) : string :=
  if String.eqb path "" then "."
  else
    let initial_slashes : nat :=
      if startswith path "/" then
        if (startswith path "//" && negb (startswith path "///"))%bool
        then 2%nat else 1%nat
      else 0%nat in
    let comps := fold_left (normpath_step initial_slashes) (split path) [] in
    let joined := String.concat "/" comps in
    let path' :=
      match initial_slashes with
      | O => joined
      | S O => String.append "/" joined
      | _ => String.append "//" joined
      end in
    if String.eqb path' "" then "." else path'.

(** [abspath(path)]; [cwd] is what [os.getcwd()] returns. *)
Definition abspath (cwd path : string) : string :=
  normpath (if isabs path then path else join cwd path).

(** [normcase] is the identity on POSIX. *)
Definition normcase (s : string) : string := s.

(** [min(m)] and [max(m)] of a non-empty list: the first least and the
    first greatest string in code-point order. *)
Definition py_min (x : string) (rest : list string) : string :=
  fold_left (fun cur y => if String.ltb y cur then y else cur) rest x.
Definition py_max (x : string) (rest : list string) : string :=
  fold_left (fun cur y => if String.ltb cur y then y else cur) rest x.

(** The loop of [commonprefix]: walk [s1] while it agrees with [s2]. *)
Fixpoint common_walk (s1 s2 : string) : string :=
  match s1, s2 with
  | String c s1', String d s2' =>
      if Ascii.eqb c d then String c (common_walk s1' s2') else EmptyString
  | _, _ => EmptyString
  end.

Definition commonprefix (m : list string) : string :=
  match m with
  | [] => ""
  | x :: rest => common_walk (py_min x rest) (py_max x rest)
  end.

End posixpath.

(** ** norm_and_check *)

Definition norm_and_check (cwd source_tree requested : string) : outcome string :=
  if posixpath.isabs requested then Raise (ValueError "paths must be relative")
  else
    let abs_source := posixpath.abspath cwd source_tree in
    let abs_requested :=
      posixpath.normpath (posixpath.join abs_source requested) in
    let norm_source := posixpath.normcase abs_source in
    let norm_requested := posixpath.normcase abs_requested in
    if negb (String.eqb (posixpath.commonprefix [norm_source; norm_requested])
                        norm_source)
    then Raise (ValueError "paths must be inside source tree")
    else Ret abs_requested.

(** ** The world outside the caller

    A filesystem of paths (directories and JSON files), the working
    directory, and a store of dictionary objects in which [os.environ] sits at
    a fixed location. *)

Inductive node : Type :=
| Dir
| File (content : json).

Definition loc : Type := positive.
Definition os_environ : loc := 1%positive.

Record World : Type := mkWorld {
  cwd : string;
  dicts : gmap loc (gmap string string);
  fs : gmap string node
}.

Definition with_fs (f : gmap string node) (w : World) : World :=
  {| cwd := cwd w; dicts := dicts w; fs := f |}.
Definition with_dicts (d : gmap loc (gmap string string)) (w : World) : World :=
  {| cwd := cwd w; dicts := d; fs := fs w |}.

(** The dictionary an object reference denotes. *)
Definition deref (w : World) (l : loc) : gmap string string :=
  default ∅ (dicts w !! l).

(** [d.copy()]: a new object with the same entries. *)
Definition dict_copy (l : loc) (w : World) : loc * World :=
  let l' := fresh ({[os_environ]} ∪ dom (dicts w)) in
  (l', with_dicts (<[l' := deref w l]> (dicts w)) w).

(** [d.update(other)]: the entries of [other] are stored into the object. *)
Definition dict_update (l : loc) (other : gmap string string) (w : World) : World :=
  with_dicts (<[l := other ∪ deref w l]> (dicts w)) w.

(** What the interpreter and the operating system provide. *)
Record Runtime : Type := mkRuntime {
  (** [sys.version_info[0]] *)
  version_major : Z;
  (** [sys.executable] *)
  sys_executable : string;
  (** [pjoin(dirname(abspath(__file__)), '_in_process.py')] *)
  _in_proc_script : string;
  (** [s.encode(sys.getfilesystemencoding())] *)
  fs_encode : string -> outcome string;
  (** the name [mkdtemp] picks, given the paths that exist *)
  mkdtemp_name : gset string -> string;
  (** launch a child with this command line, working directory and
      environment, and wait for it: its exit status, or the error of a
      launch that failed.  A child works on the filesystem; it has no access
      to the objects of the parent. *)
  spawn : list string -> option string -> gmap string string ->
          gmap string node -> outcome Z * gmap string node
}.

(** A subprocess runner: [runner(cmd, cwd=..., extra_environ=...)]. *)
Definition runner : Type :=
  list string -> option string -> option (gmap string string) ->
  World -> outcome unit * World.

(** [subprocess.check_call(cmd, cwd=cwd, env=env)] *)
Definition check_call (py : Runtime) (cmd : list string) (cwd : option string)
    (env : loc) (w : World) : outcome unit * World :=
  match spawn py cmd cwd (deref w env) (fs w) with
  | (Ret rc, f) =>
      (if rc =? 0 then Ret tt else Raise (CalledProcessError rc cmd), with_fs f w)
  | (Raise e, f) => (Raise e, with_fs f w)
  end.

(** [if extra_environ:] *)
Definition truthy_environ (extra_environ : option (gmap string string)) : bool :=
  match extra_environ with
  | None => false
  | Some d => negb (bool_decide (d = ∅))
  end.

Definition default_subprocess_runner (py : Runtime) : runner :=
  fun cmd cwd extra_environ w =>
    let '(env, w1) := dict_copy os_environ w in
    let w2 :=
      if truthy_environ extra_environ
      then dict_update env (default ∅ extra_environ) w1
      else w1 in
    check_call py cmd cwd env w2.

(** ** The hook caller object and the monad of its methods *)

Record Pep517HookCaller : Type := mkCaller {
  source_dir : string;
  build_backend : string;
  backend_path : option (list string);
  _subprocess_runner : runner
}.

(** One call made through [self._subprocess_runner]: the runner that was
    called, its arguments, and the world it was started in.  The list of
    these is a record kept beside the program, which the program never
    reads. *)
Record launch : Type := mkLaunch {
  l_runner : runner;
  l_cmd : list string;
  l_cwd : option string;
  l_extra_environ : option (gmap string string);
  l_world : World
}.

Record state : Type := mkState {
  this : Pep517HookCaller;
  world : World;
  launched : list launch
}.

Definition M (A : Type) : Type := state -> outcome A * state.

#[export] Instance M_ret : MRet M := fun A a s => (Ret a, s).
#[export] Instance M_bind : MBind M := fun A B f m s =>
  match m s with
  | (Ret a, s1) => f a s1
  | (Raise e, s1) => (Raise e, s1)
  end.

Definition raise {A : Type} (e : exn) : M A := fun s => (Raise e, s).
Definition lift {A : Type} (o : outcome A) : M A := fun s => (o, s).
Definition get_self : M Pep517HookCaller := fun s => (Ret (this s), s).
Definition get_world : M World := fun s => (Ret (world s), s).
Definition put_world (w : World) : M unit := fun s =>
  (Ret tt, {| this := this s; world := w; launched := launched s |}).
Definition set_subprocess_runner (r : runner) : M unit := fun s =>
  (Ret tt,
   {| this := {| source_dir := source_dir (this s);
                 build_backend := build_backend (this s);
                 backend_path := backend_path (this s);
                 _subprocess_runner := r |};
      world := world s; launched := launched s |}).

(** [try: body finally: fin] *)
Definition try_finally {A : Type} (body : M A) (fin : M unit) : M A := fun s =>
  match body s with
  | (Ret a, s1) =>
      match fin s1 with
      | (Ret _, s2) => (Ret a, s2)
      | (Raise e, s2) => (Raise e, s2)
      end
  | (Raise e, s1) =>
      match fin s1 with
      | (Ret _, s2) => (Raise e, s2)
      | (Raise e', s2) => (Raise e', s2)
      end
  end.

(** *** Generator based context managers

    A function decorated with [contextmanager] runs up to its [yield] on
    entry, handing the yielded value to the [with] block.  On exit the
    generator is resumed at the [yield]: with [next] when the block ended
    normally, with [throw(e)] when it raised [e], in which case the [yield]
    expression itself raises [e]. *)

Inductive resume : Type :=
| Next
| Throw (e : exn).

Definition yield_ (r : resume) : M unit :=
  match r with
  | Next => mret tt
  | Throw e => raise e
  end.

Definition generator (V : Type) : Type := M (V * (resume -> M unit)).

(** [with cm as v: body].  [None] is the block left by an exception that the
    generator swallowed: the statement then completes normally. *)
Definition with_ {V A : Type} (cm : generator V) (body : V -> M A)
    : M (option A) := fun s =>
  match cm s with
  | (Raise e, s1) => (Raise e, s1)
  | (Ret (v, rest), s1) =>
      match body v s1 with
      | (Ret a, s2) =>
          match rest Next s2 with
          | (Ret _, s3) => (Ret (Some a), s3)
          | (Raise e, s3) => (Raise e, s3)
          end
      | (Raise e, s2) =>
          match rest (Throw e) s2 with
          | (Ret _, s3) => (Ret None, s3)
          | (Raise e', s3) => (Raise e', s3)
          end
      end
  end.

(** *** Filesystem primitives *)

(** [p] is [td] or lies below it. *)
Definition below (td p : string) : bool :=
  (String.eqb p td || posixpath.startswith p (posixpath.join td ""))%bool.

(** [tempfile.mkdtemp()] *)
Definition mkdtemp (py : Runtime) : M string := fun s =>
  let w := world s in
  let td := mkdtemp_name py (dom (fs w)) in
  match fs w !! td with
  | Some _ => (Raise (OSError "File exists"), s)
  | None =>
      (Ret td,
       {| this := this s; world := with_fs (<[td := Dir]> (fs w)) w;
          launched := launched s |})
  end.

(** [shutil.rmtree(td)] *)
Definition rmtree (td : string) : M unit := fun s =>
  let w := world s in
  match fs w !! td with
  | None => (Raise (OSError "No such file or directory"), s)
  | Some _ =>
      (Ret tt,
       {| this := this s;
          world := with_fs (filter (fun kv => below td kv.1 = false) (fs w)) w;
          launched := launched s |})
  end.

(** Modelled from the spec: [compat.write_json], which is not among the
    sources; it serializes a value to a structured-data file.  The file
    holds the value. *)
Definition write_json (obj : json) (path : string) : M unit := fun s =>
  let w := world s in
  (Ret tt,
   {| this := this s; world := with_fs (<[path := File obj]> (fs w)) w;
      launched := launched s |}).

(** Modelled from the spec: [compat.read_json], which is not among the
    sources; it reads and parses a structured-data file. *)
Definition read_json (path : string) : M json := fun s =>
  match fs (world s) !! path with
  | Some (File v) => (Ret v, s)
  | _ => (Raise (OSError "No such file or directory"), s)
  end.

(** ** The two context managers of the module *)

Definition tempdir (py : Runtime) : generator string :=
  td ← mkdtemp py;
  mret (td, fun r => try_finally (yield_ r) (rmtree td)).

Definition subprocess_runner (r : runner) : generator unit :=
  self ← get_self;
  let prev := _subprocess_runner self in
  set_subprocess_runner r;;
  mret (tt, fun res => yield_ res;; set_subprocess_runner prev).

(** ** Pep517HookCaller *)

(** [if backend_path:] — neither [None] nor an empty sequence. *)
Definition truthy_path (bp : option (list string)) : bool :=
  match bp with
  | Some (_ :: _) => true
  | _ => false
  end.

(** [[norm_and_check(source_dir, p) for p in backend_path]]: left to right,
    the first failure ends the comprehension. *)
Fixpoint norm_and_check_each (cwd source_dir : string) (ps : list string)
    : outcome (list string) :=
  match ps with
  | [] => Ret []
  | p :: ps' =>
      match norm_and_check cwd source_dir p with
      | Raise e => Raise e
      | Ret a =>
          match norm_and_check_each cwd source_dir ps' with
          | Raise e => Raise e
          | Ret l => Ret (a :: l)
          end
      end
  end.

Definition __init__ (py : Runtime) (w : World) (source_dir0 build_backend0 : string)
    (backend_path0 : option (list string)) : outcome Pep517HookCaller :=
  let source_dir1 := posixpath.abspath (cwd w) source_dir0 in
  let checked :=
    if truthy_path backend_path0
    then match norm_and_check_each (cwd w) source_dir1 (default [] backend_path0) with
         | Ret l => Ret (Some l)
         | Raise e => Raise e
         end
    else Ret backend_path0 in
  match checked with
  | Raise e => Raise e
  | Ret bp =>
      Ret {| source_dir := source_dir1;
             build_backend := build_backend0;
             backend_path := bp;
             _subprocess_runner := default_subprocess_runner py |}
  end.

(** [s.encode('ASCII')] *)
Definition encode_ASCII (s : string) : outcome string :=
  if forallb (fun c => (nat_of_ascii c <? 128)%nat) (list_ascii_of_string s)
  then Ret s
  else Raise (UnicodeEncodeError "ascii").

(** [self._subprocess_runner(cmd, cwd=cwd, extra_environ=extra_environ)] *)
Definition call_runner (cmd : list string) (cwd : option string)
    (extra_environ : option (gmap string string)) : M unit := fun s =>
  let r := _subprocess_runner (this s) in
  let '(o, w') := r cmd cwd extra_environ (world s) in
  (o, {| this := this s; world := w';
         launched := launched s ++
           [{| l_runner := r; l_cmd := cmd; l_cwd := cwd;
               l_extra_environ := extra_environ; l_world := world s |}] |}).

(** Lines 209-220: the classification of the parsed output. *)
Definition classify (self : Pep517HookCaller) (data : json) : M json :=
  match data with
  | JObj d =>
      if truthy (dict_get_default d "unsupported" JNull)
      then raise (UnsupportedOperation (dict_get_default d "traceback" (JStr "")))
      else if truthy (dict_get_default d "no_backend" JNull)
      then raise (BackendUnavailable (dict_get_default d "traceback" (JStr "")))
      else if truthy (dict_get_default d "backend_invalid" JNull)
      then raise (BackendInvalid (build_backend self) (backend_path self)
                    (dict_get_default d "backend_error" (JStr "")))
      else match dict_get d "return_val" with
           | Some v => mret v
           | None => raise (KeyError "return_val")
           end
  | _ => raise (AttributeError "get")
  end.

(** Lines 185-195: the environment overlay. *)
Definition hook_environ (py : Runtime) (self : Pep517HookCaller)
    : M (gmap string string) :=
  build_backend1 ← (if version_major py =? 2
                    then lift (encode_ASCII (build_backend self))
                    else mret (build_backend self));
  let extra_environ : gmap string string :=
    {[ "PEP517_BUILD_BACKEND" := build_backend1 ]} in
  if truthy_path (backend_path self)
  then
    let backend_path1 :=
      String.concat posixpath.pathsep (default [] (backend_path self)) in
    backend_path2 ← (if version_major py =? 2
                     then lift (fs_encode py backend_path1)
                     else mret backend_path1);
    mret (<[ "PEP517_BACKEND_PATH" := backend_path2 ]> extra_environ)
  else mret extra_environ.

Definition _call_hook (py : Runtime) (hook_name : string)
    (kwargs : list (string * json)) : M json :=
  self ← get_self;
  extra_environ ← hook_environ py self;
  res ← with_ (tempdir py) (fun td =>
    let hook_input := JObj [("kwargs", JObj kwargs)] in
    write_json hook_input (posixpath.join td "input.json");;
    call_runner [sys_executable py; _in_proc_script py; hook_name; td]
                (Some (source_dir self)) (Some extra_environ);;
    data ← read_json (posixpath.join td "output.json");
    classify self data);
  match res with
  | Some v => mret v
  | None => mret JNull
  end.

(** [abspath(p)] inside a method: the working directory is read first. *)
Definition abspath (p : string) : M string :=
  w ← get_world; mret (posixpath.abspath (cwd w) p).

Definition get_requires_for_build_wheel (py : Runtime) (config_settings : json)
    : M json :=
  _call_hook py "get_requires_for_build_wheel"
    [("config_settings", config_settings)].

Definition prepare_metadata_for_build_wheel (py : Runtime)
    (metadata_directory : string) (config_settings : json) : M json :=
  md ← abspath metadata_directory;
  _call_hook py "prepare_metadata_for_build_wheel"
    [("metadata_directory", JStr md); ("config_settings", config_settings)].

Definition build_wheel (py : Runtime) (wheel_directory : string)
    (config_settings : json) (metadata_directory : option string) : M json :=
  md ← match metadata_directory with
       | Some m => a ← abspath m; mret (JStr a)
       | None => mret JNull
       end;
  wd ← abspath wheel_directory;
  _call_hook py "build_wheel"
    [("wheel_directory", JStr wd); ("config_settings", config_settings);
     ("metadata_directory", md)].

Definition get_requires_for_build_sdist (py : Runtime) (config_settings : json)
    : M json :=
  _call_hook py "get_requires_for_build_sdist"
    [("config_settings", config_settings)].

Definition build_sdist (py : Runtime) (sdist_directory : string)
    (config_settings : json) : M json :=
  sd ← abspath sdist_directory;
  _call_hook py "build_sdist"
    [("sdist_directory", JStr sd); ("config_settings", config_settings)].

(** ** What "inside the source tree" means

    A path lies in the tree when the components of the root are the leading
    components of the path. *)

Definition components (p : string) : list string :=
  filter (fun c => c ≠ "") (posixpath.split p).

Fixpoint leading (root p : list string) : bool :=
  match root, p with
  | [], _ => true
  | x :: root', y :: p' => (String.eqb x y && leading root' p')%bool
  | _ :: _, [] => false
  end.

Definition inside (root p : string) : bool :=
  leading (components root) (components p).

(** ** Concrete runtimes and stub backends, for running the model *)

(** The child a stub backend stands for: it writes [out] as [output.json]
    into the scratch directory named by the last argument and exits with
    status [rc]; with no [out] it writes nothing. *)
Definition stub_backend (out : option json) (rc : Z)
    : list string -> option string -> gmap string string ->
      gmap string node -> outcome Z * gmap string node :=
  fun cmd _ _ f =>
    match out with
    | Some v =>
        (Ret rc, <[posixpath.join (default "" (last cmd)) "output.json" := File v]> f)
    | None => (Ret rc, f)
    end.

Definition cpython3 (out : option json) (rc : Z) : Runtime :=
  {| version_major := 3;
     sys_executable := "/usr/bin/python3";
     _in_proc_script := "/lib/pep517/_in_process.py";
     fs_encode := fun s => Ret s;
     mkdtemp_name := fun _ => "/tmp/tmpk3x9";
     spawn := stub_backend out rc |}.

Definition world0 : World :=
  {| cwd := "/home/dev";
     dicts := {[ os_environ := {[ "PATH" := "/usr/bin" ]} ]};
     fs := {[ "/proj" := Dir; "/tmp" := Dir ]} |}.

(** A runner that raises instead of launching anything. *)
Definition failing_runner (e : exn) : runner := fun _ _ _ w => (Raise e, w).

(** ** Auxiliary notions of the statements *)

(** The directory [mkdtemp] is about to create in state [s]. *)
Definition scratch (py : Runtime) (s : state) : string :=
  mkdtemp_name py (dom (fs (world s))).
Arguments scratch : simpl never.

Definition hook_cmd (py : Runtime) (hook_name : string) (s : state) : list string :=
  [sys_executable py; _in_proc_script py; hook_name; scratch py s].

Definition launch_world (py : Runtime) (kwargs : list (string * json))
    (s : state) : World :=
  with_fs (<[posixpath.join (scratch py s) "input.json"
             := File (JObj [("kwargs", JObj kwargs)])]>
             (<[scratch py s := Dir]> (fs (world s)))) (world s).

(** The text [_call_hook] stores under [PEP517_BACKEND_PATH]: the entries
    joined by [os.pathsep]; on Python 2, what the filesystem encoding makes
    of that. *)
Definition exported_path (py : Runtime) (paths : list string) (v : string) : Prop :=
  if version_major py =? 2
  then fs_encode py (String.concat posixpath.pathsep paths) = Ret v
  else v = String.concat posixpath.pathsep paths.

Definition reply_requires : json :=
  JObj [("return_val", JArr [JStr "setuptools>=26"])].

Definition py0 : Runtime := cpython3 (Some reply_requires) 0.

Definition state0 (py : Runtime) (bp : option (list string)) : state :=
  {| this := {| source_dir := "/proj";
                build_backend := "setuptools.build_meta";
                backend_path := bp;
                _subprocess_runner := default_subprocess_runner py |};
     world := world0;
     launched := [] |}.

Definition kwargs0 : list (string * json) := [("config_settings", JNull)].

Definition environ0 : gmap string string :=
  {[ "PEP517_BUILD_BACKEND" := "setuptools.build_meta" ]}.

Definition backend_path0 : option (list string) :=
  Some ["/proj/backend"; "/proj/vendor"].

Definition launch0 (bp : option (list string)) (env : gmap string string)
    : launch :=
  {| l_runner := default_subprocess_runner py0;
     l_cmd := ["/usr/bin/python3"; "/lib/pep517/_in_process.py";
               "get_requires_for_build_sdist"; "/tmp/tmpk3x9"];
     l_cwd := Some "/proj";
     l_extra_environ := Some env;
     l_world := launch_world py0 kwargs0 (state0 py0 bp) |}.

(** The payload without the member [key]. *)
Fixpoint dict_del (key : string) (members : list (string * json))
    : list (string * json) :=
  match members with
  | [] => []
  | (k, v) :: rest =>
      if String.eqb k key then dict_del key rest
      else (k, v) :: dict_del key rest
  end.

(** Running [m] from [s] launches the hook [hook_name] once, in a world where
    [input.json] in the scratch directory holds exactly
    [{"kwargs": kwargs}]. *)
Definition launches_with (py : Runtime) (m : M json) (s : state)
    (hook_name : string) (kwargs : list (string * json)) : Prop :=
  ∃ l, launched (m s).2 = (launched s ++ [l])%list
       ∧ l_cmd l = hook_cmd py hook_name s
       ∧ fs (l_world l) !! posixpath.join (scratch py s) "input.json"
         = Some (File (JObj [("kwargs", JObj kwargs)])).

(** The state inside the scope: the override is installed. *)
Definition overridden (r : runner) (s : state) : state :=
  {| this := {| source_dir := source_dir (this s);
                build_backend := build_backend (this s);
                backend_path := backend_path (this s);
                _subprocess_runner := r |};
     world := world s; launched := launched s |}.

Definition cmd0 : list string :=
  ["/usr/bin/python3"; "/lib/pep517/_in_process.py"; "build_wheel";
   "/tmp/tmpk3x9"].

Definition payload0 : list (string * json) :=
  [("unsupported", JBool false); ("return_val", JInt 7)].

Definition cpython2 : Runtime :=
  {| version_major := 2;
     sys_executable := "/usr/bin/python2";
     _in_proc_script := "/lib/pep517/_in_process.py";
     fs_encode := fun s => Ret s;
     mkdtemp_name := fun _ => "/tmp/tmpk3x9";
     spawn := stub_backend (Some reply_requires) 0 |}.

Definition state_latin1 : state :=
  {| this := {| source_dir := "/proj";
                build_backend := String "233"%char "_backend";
                backend_path := None;
                _subprocess_runner := default_subprocess_runner cpython2 |};
     world := world0;
     launched := [] |}.

(** The state in which the block of [with tempdir() as td] starts. *)
Definition scratch_created (py : Runtime) (s : state) : state :=
  {| this := this s;
     world := with_fs (<[scratch py s := Dir]> (fs (world s))) (world s);
     launched := launched s |}.

(** A block that leaves a note in the scratch directory. *)
Definition leave_note (td : string) : M unit :=
  write_json (JInt 1) (posixpath.join td "note.json").

(** ** Theorems *)

(** C1. [norm_and_check] is documented to accept only paths that resolve to a
    location under the source tree.  Evaluated at root [/proj] and requested
    path [../proj2] it returns [/proj2], which is not inside [/proj]: the
    comparison by [commonprefix] is character based, and [/proj] is a
    character prefix of [/proj2]. *)
Theorem norm_and_check_accepts_sibling :
  norm_and_check "/" "/proj" "../proj2" = Ret "/proj2"
  ∧ inside "/proj" "/proj2" = false.
Proof. split; vm_compute; reflexivity. Qed.

(** C5. Constructing a caller for [/proj] with backend path [["../proj2"]]
    succeeds and stores [["/proj2"]], a directory outside the project root:
    the entry is validated at construction, by [norm_and_check], which lets
    it through. *)
Theorem init_accepts_sibling (py : Runtime) (w : World) :
  __init__ py w "/proj" "x" (Some ["../proj2"])
  = Ret {| source_dir := "/proj"; build_backend := "x";
           backend_path := Some ["/proj2"];
           _subprocess_runner := default_subprocess_runner py |}
  ∧ inside "/proj" "/proj2" = false.
Proof.
  split; [| vm_compute; reflexivity].
  unfold __init__.
  replace (posixpath.abspath (cwd w) "/proj") with "/proj"
    by (vm_compute; reflexivity).
  replace (norm_and_check_each (cwd w) "/proj" (default [] (Some ["../proj2"])))
    with (Ret ["/proj2"]) by (vm_compute; reflexivity).
  reflexivity.
Qed.

(** *** The scratch directory *)

Lemma below_self (td : string) : below td td = true.
Proof. unfold below. by rewrite String.eqb_refl. Qed.

Lemma rmtree_gone (td : string) (s : state) :
  fs (world (rmtree td s).2) !! td = None.
Proof.
  unfold rmtree. destruct (fs (world s) !! td) eqn:E; simpl; [| exact E].
  apply map_lookup_filter_None. right. intros x _. simpl.
  rewrite below_self. discriminate.
Qed.

(** Whatever happens at the [yield], [try: yield finally: rmtree(td)] ends
    in a state without [td]. *)
Lemma finally_rmtree_gone (td : string) (r : resume) (s : state) :
  fs (world (try_finally (yield_ r) (rmtree td) s).2) !! td = None.
Proof.
  unfold try_finally.
  destruct (yield_ r s) as [[a | e] s1];
    pose proof (rmtree_gone td s1) as G;
    destruct (rmtree td s1) as [[u | e'] s2]; exact G.
Qed.

(** A block run under [tempdir()] leaves no scratch directory behind,
    however the block ends. *)
Lemma with_tempdir_gone (py : Runtime) {A : Type} (body : string -> M A)
    (s : state) :
  fs (world s) !! scratch py s = None ->
  fs (world (with_ (tempdir py) body s).2) !! scratch py s = None.
Proof.
  intros Hnew. unfold with_, tempdir, mbind, M_bind, mkdtemp, mret, M_ret.
  fold (scratch py s). rewrite Hnew.
  set (s1 := {| this := this s; world := _; launched := launched s |}).
  destruct (body (scratch py s) s1) as [[a | e] s2].
  - pose proof (finally_rmtree_gone (scratch py s) Next s2) as G.
    destruct (try_finally (yield_ Next) (rmtree (scratch py s)) s2)
      as [[u | e'] s3]; exact G.
  - pose proof (finally_rmtree_gone (scratch py s) (Throw e) s2) as G.
    destruct (try_finally (yield_ (Throw e)) (rmtree (scratch py s)) s2)
      as [[u | e'] s3]; exact G.
Qed.

(** Building the overlay reads the caller and touches nothing. *)
Lemma hook_environ_state (py : Runtime) (self : Pep517HookCaller) (s : state) :
  (hook_environ py self s).2 = s.
Proof.
  unfold hook_environ, mbind, M_bind, mret, M_ret, lift.
  destruct (version_major py =? 2).
  - destruct (encode_ASCII (build_backend self)); [| reflexivity].
    destruct (truthy_path (backend_path self)); [| reflexivity].
    destruct (fs_encode py _); reflexivity.
  - destruct (truthy_path (backend_path self)); reflexivity.
Qed.

(** C3. The scratch directory that a call of [_call_hook] creates does not
    exist once the call is over, whether the call returned a value, raised
    one of [UnsupportedOperation], [BackendUnavailable] and [BackendInvalid],
    or was ended by an exception of the subprocess runner. *)
Theorem call_hook_removes_scratch (py : Runtime) (hook_name : string)
    (kwargs : list (string * json)) (s : state) :
  fs (world s) !! scratch py s = None ->
  fs (world (_call_hook py hook_name kwargs s).2) !! scratch py s = None.
Proof.
  intros Hnew. unfold _call_hook, mbind, M_bind, get_self.
  pose proof (hook_environ_state py (this s) s) as Hs.
  destruct (hook_environ py (this s) s) as [[env | e] s0]; simpl in Hs; subst s0;
    [| exact Hnew].
  match goal with
  | |- context [with_ (tempdir py) ?b s] =>
      pose proof (with_tempdir_gone py b s Hnew) as G;
      destruct (with_ (tempdir py) b s) as [[[v |] | e] s3]
  end; exact G.
Qed.

Lemma call_hook_launched (py : Runtime) (hook_name : string)
    (kwargs : list (string * json)) (s : state) (env : gmap string string) :
  hook_environ py (this s) s = (Ret env, s) ->
  fs (world s) !! scratch py s = None ->
  launched (_call_hook py hook_name kwargs s).2
  = (launched s ++
      [{| l_runner := _subprocess_runner (this s);
          l_cmd := hook_cmd py hook_name s;
          l_cwd := Some (source_dir (this s));
          l_extra_environ := Some env;
          l_world := launch_world py kwargs s |}])%list.
Proof.
  intros Henv Hnew.
  unfold _call_hook, mbind, M_bind, get_self. rewrite Henv.
  unfold with_, tempdir, mbind, M_bind, mkdtemp, mret, M_ret.
  fold (scratch py s). rewrite Hnew.
  unfold write_json, call_runner. simpl.
  fold (launch_world py kwargs s). fold (hook_cmd py hook_name s).
  destruct (_subprocess_runner (this s) _ _ _ _) as [[[] | e] w2]; simpl;
    unfold read_json, classify, try_finally, rmtree, yield_, raise, mret, M_ret;
    simpl; repeat (case_match; simpl in *; simplify_eq); reflexivity.
Qed.

(** When the overlay cannot be built or [mkdtemp] fails, nothing is
    launched. *)
Lemma call_hook_not_launched (py : Runtime) (hook_name : string)
    (kwargs : list (string * json)) (s : state) :
  (∃ e, hook_environ py (this s) s = (Raise e, s))
  ∨ is_Some (fs (world s) !! scratch py s) ->
  launched (_call_hook py hook_name kwargs s).2 = launched s.
Proof.
  intros H. unfold _call_hook, mbind, M_bind, get_self.
  destruct H as [[e He] | [n Hn]].
  - rewrite He. reflexivity.
  - pose proof (hook_environ_state py (this s) s) as Hs.
    destruct (hook_environ py (this s) s) as [[env | e] s0]; simpl in Hs;
      subst s0; [| reflexivity].
    unfold with_, tempdir, mbind, M_bind, mkdtemp.
    fold (scratch py s). rewrite Hn. reflexivity.
Qed.

(** A call of [_call_hook] launches at most once, and what it launches is
    determined by the state it starts in. *)
Lemma call_hook_launches (py : Runtime) (hook_name : string)
    (kwargs : list (string * json)) (s : state) (l : launch) :
  launched (_call_hook py hook_name kwargs s).2 = (launched s ++ [l])%list ->
  ∃ env, hook_environ py (this s) s = (Ret env, s)
         ∧ fs (world s) !! scratch py s = None
         ∧ l = {| l_runner := _subprocess_runner (this s);
                  l_cmd := hook_cmd py hook_name s;
                  l_cwd := Some (source_dir (this s));
                  l_extra_environ := Some env;
                  l_world := launch_world py kwargs s |}.
Proof.
  intros H.
  assert (Hno : launched (_call_hook py hook_name kwargs s).2 ≠ launched s).
  { rewrite H. intros E. apply (f_equal length) in E.
    rewrite length_app in E. simpl in E. lia. }
  pose proof (hook_environ_state py (this s) s) as Hs.
  destruct (hook_environ py (this s) s) as [[env | e] s0] eqn:He;
    simpl in Hs; subst s0.
  - destruct (fs (world s) !! scratch py s) eqn:Hn.
    + exfalso. apply Hno, call_hook_not_launched. right. eauto.
    + exists env. split; [reflexivity | split; [reflexivity |]].
      rewrite (call_hook_launched py hook_name kwargs s env He Hn) in H.
      apply app_inj_tail in H as [_ H]. by symmetry.
  - exfalso. apply Hno, call_hook_not_launched. left. eauto.
Qed.

(** The outcome of a call whose runner returned normally, leaving the
    scratch directory in place with [data] as [output.json]: it is the
    classification of [data]. *)
Lemma call_hook_replied (py : Runtime) (hook_name : string)
    (kwargs : list (string * json)) (s s' : state) (env : gmap string string)
    (w2 : World) (data : json) :
  hook_environ py (this s) s = (Ret env, s) ->
  fs (world s) !! scratch py s = None ->
  _subprocess_runner (this s) (hook_cmd py hook_name s)
    (Some (source_dir (this s))) (Some env) (launch_world py kwargs s)
  = (Ret tt, w2) ->
  is_Some (fs w2 !! scratch py s) ->
  fs w2 !! posixpath.join (scratch py s) "output.json" = Some (File data) ->
  (_call_hook py hook_name kwargs s).1 = (classify (this s) data s').1.
Proof.
  intros Henv Hnew Hrun [n Hdir] Hout.
  unfold _call_hook, mbind, M_bind, get_self. rewrite Henv.
  unfold with_, tempdir, mbind, M_bind, mkdtemp, mret, M_ret.
  fold (scratch py s). rewrite Hnew.
  unfold write_json, call_runner. simpl.
  destruct (_subprocess_runner (this s) _ _ _ _) as [o w'] eqn:E.
  change (_subprocess_runner (this s) (hook_cmd py hook_name s)
            (Some (source_dir (this s))) (Some env)
            (launch_world py kwargs s) = (o, w')) in E.
  rewrite Hrun in E. symmetry in E. simplify_eq.
  unfold read_json. simpl. rewrite Hout.
  unfold classify, try_finally, rmtree, yield_, raise, mret, M_ret.
  destruct data; simpl; rewrite ?Hdir; simpl; try reflexivity.
  repeat match goal with
         | |- context [truthy ?x] => destruct (truthy x)
         end;
    try destruct (dict_get members "return_val");
    simpl; rewrite Hdir; reflexivity.
Qed.

(** C4. When the runner has returned and [output.json] holds the object [d],
    [_call_hook] judges it in this order: a set [unsupported] marker raises
    [UnsupportedOperation] with the payload's [traceback]; else a set
    [no_backend] raises [BackendUnavailable] with the [traceback]; else a set
    [backend_invalid] raises [BackendInvalid] with the caller's backend name,
    backend path and the payload's [backend_error]; else the value under
    [return_val] is returned as it is. *)
Theorem call_hook_classification (py : Runtime) (hook_name : string)
    (kwargs : list (string * json)) (s : state) (env : gmap string string)
    (w2 : World) (d : list (string * json)) :
  hook_environ py (this s) s = (Ret env, s) ->
  fs (world s) !! scratch py s = None ->
  _subprocess_runner (this s) (hook_cmd py hook_name s)
    (Some (source_dir (this s))) (Some env) (launch_world py kwargs s)
  = (Ret tt, w2) ->
  is_Some (fs w2 !! scratch py s) ->
  fs w2 !! posixpath.join (scratch py s) "output.json" = Some (File (JObj d)) ->
  (_call_hook py hook_name kwargs s).1 =
    if truthy (dict_get_default d "unsupported" JNull)
    then Raise (UnsupportedOperation (dict_get_default d "traceback" (JStr "")))
    else if truthy (dict_get_default d "no_backend" JNull)
    then Raise (BackendUnavailable (dict_get_default d "traceback" (JStr "")))
    else if truthy (dict_get_default d "backend_invalid" JNull)
    then Raise (BackendInvalid (build_backend (this s)) (backend_path (this s))
                  (dict_get_default d "backend_error" (JStr "")))
    else match dict_get d "return_val" with
         | Some v => Ret v
         | None => Raise (KeyError "return_val")
         end.
Proof.
  intros Henv Hnew Hrun Hdir Hout.
  rewrite (call_hook_replied py hook_name kwargs s s env w2 (JObj d)
             Henv Hnew Hrun Hdir Hout).
  unfold classify, raise, mret, M_ret.
  repeat (case_match; simpl); reflexivity.
Qed.

(** *** The environment overlay *)

Lemma encode_ASCII_Ret (s r : string) : encode_ASCII s = Ret r -> r = s.
Proof. unfold encode_ASCII. case_match; congruence. Qed.

Lemma hook_environ_Ret (py : Runtime) (self : Pep517HookCaller) (s : state)
    (env : gmap string string) :
  hook_environ py self s = (Ret env, s) ->
  env !! "PEP517_BUILD_BACKEND" = Some (build_backend self)
  ∧ if truthy_path (backend_path self)
    then ∃ v, env !! "PEP517_BACKEND_PATH" = Some v
              ∧ exported_path py (default [] (backend_path self)) v
    else env !! "PEP517_BACKEND_PATH" = None.
Proof.
  unfold hook_environ, exported_path, mbind, M_bind, mret, M_ret, lift.
  intros H.
  destruct (version_major py =? 2).
  - destruct (encode_ASCII (build_backend self)) as [b |] eqn:Eb;
      [apply encode_ASCII_Ret in Eb; subst b | discriminate].
    destruct (truthy_path (backend_path self)).
    + destruct (fs_encode py _) as [v |] eqn:Ev; [| discriminate].
      simplify_eq. split; [by simplify_map_eq |].
      exists v. by simplify_map_eq.
    + simplify_eq. split; by simplify_map_eq.
  - destruct (truthy_path (backend_path self)); simplify_eq.
    + split; [by simplify_map_eq |]. eexists. by simplify_map_eq.
    + split; by simplify_map_eq.
Qed.

(** On Python 3 nothing is encoded and the overlay is always built. *)
Lemma hook_environ_py3 (py : Runtime) (self : Pep517HookCaller) (s : state) :
  version_major py ≠ 2 -> ∃ env, hook_environ py self s = (Ret env, s).
Proof.
  intros H. apply Z.eqb_neq in H.
  unfold hook_environ, mbind, M_bind, mret, M_ret. rewrite H.
  destruct (truthy_path (backend_path self)); eauto.
Qed.

(** C6, as the code has it.  In every launch made by [_call_hook] the
    overlay maps [PEP517_BUILD_BACKEND] to the caller's backend name, and it
    holds [PEP517_BACKEND_PATH] — the backend path entries joined by the
    path-list separator — exactly when the caller's backend path is set and
    not empty. *)
Theorem call_hook_overlay (py : Runtime) (hook_name : string)
    (kwargs : list (string * json)) (s : state) (l : launch) :
  launched (_call_hook py hook_name kwargs s).2 = (launched s ++ [l])%list ->
  ∃ env, l_extra_environ l = Some env
    ∧ env !! "PEP517_BUILD_BACKEND" = Some (build_backend (this s))
    ∧ if truthy_path (backend_path (this s))
      then ∃ v, env !! "PEP517_BACKEND_PATH" = Some v
                ∧ exported_path py (default [] (backend_path (this s))) v
      else env !! "PEP517_BACKEND_PATH" = None.
Proof.
  intros H. apply call_hook_launches in H as (env & Henv & _ & ->).
  exists env. split; [reflexivity |]. by apply hook_environ_Ret in Henv.
Qed.

(** C9. A caller constructed with an empty backend path is constructed
    without any check and keeps the empty list; and a caller whose backend
    path is [None] or empty launches with an overlay that has no
    [PEP517_BACKEND_PATH]. *)
Theorem empty_backend_path_is_absent (py : Runtime) :
  (∀ (w : World) (source_dir0 build_backend0 : string),
     __init__ py w source_dir0 build_backend0 (Some [])
     = Ret {| source_dir := posixpath.abspath (cwd w) source_dir0;
              build_backend := build_backend0;
              backend_path := Some [];
              _subprocess_runner := default_subprocess_runner py |})
  ∧ (∀ (hook_name : string) (kwargs : list (string * json)) (s : state)
       (l : launch),
       backend_path (this s) = None ∨ backend_path (this s) = Some [] ->
       launched (_call_hook py hook_name kwargs s).2 = (launched s ++ [l])%list ->
       ∃ env, l_extra_environ l = Some env
              ∧ env !! "PEP517_BACKEND_PATH" = None).
Proof.
  split; [reflexivity |].
  intros hook_name kwargs s l Hbp H.
  apply call_hook_launches in H as (env & Henv & _ & ->).
  exists env. split; [reflexivity |].
  apply hook_environ_Ret in Henv as [_ Henv].
  destruct Hbp as [Hbp | Hbp]; rewrite Hbp in Henv; exact Henv.
Qed.

(** *** Runs of the model *)

Lemma call_hook_removes_scratch_witness :
  fs (world (_call_hook py0 "get_requires_for_build_sdist" kwargs0
               (state0 py0 None)).2) !! "/tmp/tmpk3x9" = None.
Proof.
  apply (call_hook_removes_scratch py0 "get_requires_for_build_sdist" kwargs0
           (state0 py0 None)).
  vm_compute. reflexivity.
Defined.

Lemma call_hook_classification_witness :
  (_call_hook py0 "get_requires_for_build_sdist" kwargs0 (state0 py0 None)).1
  = Ret (JArr [JStr "setuptools>=26"]).
Proof.
  refine (call_hook_classification py0 "get_requires_for_build_sdist" kwargs0
            (state0 py0 None) environ0
            (default_subprocess_runner py0
               (hook_cmd py0 "get_requires_for_build_sdist" (state0 py0 None))
               (Some "/proj") (Some environ0)
               (launch_world py0 kwargs0 (state0 py0 None))).2
            [("return_val", JArr [JStr "setuptools>=26"])] _ _ _ _ _).
  - reflexivity.
  - vm_compute. reflexivity.
  - vm_compute. reflexivity.
  - eexists. vm_compute. reflexivity.
  - vm_compute. reflexivity.
Defined.

Lemma call_hook_overlay_witness :
  ∃ env, l_extra_environ
           (launch0 backend_path0
              (<["PEP517_BACKEND_PATH" := "/proj/backend:/proj/vendor"]> environ0))
         = Some env
    ∧ env !! "PEP517_BUILD_BACKEND" = Some "setuptools.build_meta"
    ∧ ∃ v, env !! "PEP517_BACKEND_PATH" = Some v
           ∧ v = "/proj/backend:/proj/vendor".
Proof.
  refine (call_hook_overlay py0 "get_requires_for_build_sdist" kwargs0
            (state0 py0 backend_path0)
            (launch0 backend_path0
               (<["PEP517_BACKEND_PATH" := "/proj/backend:/proj/vendor"]> environ0))
            _).
  reflexivity.
Defined.

(** C6, as the spec words it, fails for a caller constructed with the empty
    list as backend path: the path is set, the hook is launched, and the
    overlay has no [PEP517_BACKEND_PATH]. *)
Lemma empty_backend_path_set_not_exported :
  __init__ py0 world0 "/proj" "setuptools.build_meta" (Some [])
  = Ret (this (state0 py0 (Some [])))
  ∧ launched (_call_hook py0 "get_requires_for_build_sdist" kwargs0
                (state0 py0 (Some []))).2
    = [launch0 (Some []) environ0]
  ∧ ¬ (is_Some (environ0 !! "PEP517_BACKEND_PATH")
       ↔ is_Some (backend_path (this (state0 py0 (Some []))))).
Proof.
  split; [reflexivity | split; [reflexivity |]].
  intros [_ H]. destruct H as [v Hv]; [by eexists |].
  vm_compute in Hv. discriminate.
Qed.

Lemma empty_backend_path_is_absent_witness :
  ∃ env, l_extra_environ (launch0 (Some []) environ0) = Some env
         ∧ env !! "PEP517_BACKEND_PATH" = None.
Proof.
  refine (proj2 (empty_backend_path_is_absent py0)
            "get_requires_for_build_sdist" kwargs0 (state0 py0 (Some []))
            (launch0 (Some []) environ0) _ _).
  - right. reflexivity.
  - reflexivity.
Defined.

(** *** Markers *)

Lemma dict_get_del_eq (key : string) (d : list (string * json)) :
  dict_get (dict_del key d) key = None.
Proof.
  induction d as [| [k v] d IH]; simpl; [reflexivity |].
  destruct (String.eqb k key) eqn:E; simpl; [exact IH |].
  rewrite E. exact IH.
Qed.

Lemma dict_get_del_ne (key key' : string) (d : list (string * json)) :
  key ≠ key' -> dict_get (dict_del key d) key' = dict_get d key'.
Proof.
  intros Hne. induction d as [| [k v] d IH]; simpl; [reflexivity |].
  destruct (String.eqb k key) eqn:E; simpl.
  - apply String.eqb_eq in E. subst k.
    destruct (String.eqb key key') eqn:E'; [| exact IH].
    apply String.eqb_eq in E'. contradiction.
  - rewrite IH. reflexivity.
Qed.

(** C10. The markers count by their truth value.  A payload in which a
    marker has a false value ([false], [null], [0], an empty string, list or
    object) is judged as the payload without that marker; and of several set
    markers [unsupported] wins over [no_backend], which wins over
    [backend_invalid]. *)
Theorem markers_by_truthiness (self : Pep517HookCaller)
    (d : list (string * json)) (s : state) :
  (∀ (k : string) (v : json),
     k ∈ ["unsupported"; "no_backend"; "backend_invalid"] ->
     dict_get d k = Some v -> truthy v = false ->
     classify self (JObj d) s = classify self (JObj (dict_del k d)) s)
  ∧ (truthy (dict_get_default d "unsupported" JNull) = true ->
     classify self (JObj d) s
     = (Raise (UnsupportedOperation (dict_get_default d "traceback" (JStr ""))), s))
  ∧ (truthy (dict_get_default d "unsupported" JNull) = false ->
     truthy (dict_get_default d "no_backend" JNull) = true ->
     classify self (JObj d) s
     = (Raise (BackendUnavailable (dict_get_default d "traceback" (JStr ""))), s))
  ∧ (truthy (dict_get_default d "unsupported" JNull) = false ->
     truthy (dict_get_default d "no_backend" JNull) = false ->
     truthy (dict_get_default d "backend_invalid" JNull) = true ->
     classify self (JObj d) s
     = (Raise (BackendInvalid (build_backend self) (backend_path self)
                 (dict_get_default d "backend_error" (JStr ""))), s)).
Proof.
  repeat split.
  - intros k v Hk Hget Hfalse.
    unfold classify, dict_get_default.
    repeat (apply elem_of_cons in Hk as [-> | Hk]);
      [ | | | by apply elem_of_nil in Hk];
      rewrite dict_get_del_eq, !dict_get_del_ne by discriminate;
      rewrite Hget, Hfalse; reflexivity.
  - intros H1. unfold classify. rewrite H1. reflexivity.
  - intros H1 H2. unfold classify. rewrite H1, H2. reflexivity.
  - intros H1 H2 H3. unfold classify. rewrite H1, H2, H3. reflexivity.
Qed.

(** *** The default runner *)

Lemma fresh_loc (w : World) :
  let l := fresh ({[os_environ]} ∪ dom (dicts w)) in
  l ≠ os_environ ∧ dicts w !! l = None.
Proof.
  intros l.
  pose proof (is_fresh ({[os_environ]} ∪ dom (dicts w))) as Hf. fold l in Hf.
  split; [set_solver |].
  apply not_elem_of_dom. set_solver.
Qed.

Lemma truthy_environ_default (extra : option (gmap string string)) :
  truthy_environ extra = false -> default ∅ extra = ∅.
Proof.
  destruct extra as [d |]; simpl; [| reflexivity].
  intros H. apply negb_false_iff, bool_decide_eq_true in H. exact H.
Qed.

(** The environment the default runner hands to the child. *)
Lemma default_runner_child_env (py : Runtime) (cmd : list string)
    (dir : option string) (extra : option (gmap string string)) (w : World) :
  default_subprocess_runner py cmd dir extra w
  = check_call py cmd dir (fresh ({[os_environ]} ∪ dom (dicts w)))
      (with_dicts (<[fresh ({[os_environ]} ∪ dom (dicts w))
                     := default ∅ extra ∪ deref w os_environ]> (dicts w)) w).
Proof.
  unfold default_subprocess_runner, dict_copy, dict_update.
  destruct (truthy_environ extra) eqn:E.
  - f_equal. unfold with_dicts, deref. simpl.
    rewrite lookup_insert_eq. simpl. rewrite insert_insert_eq. reflexivity.
  - rewrite (truthy_environ_default extra E), (left_id_L ∅ (∪)). reflexivity.
Qed.

(** C7. The default runner launches the child with the entries of
    [os.environ] overlaid with those of [extra_environ], the latter winning;
    [os.environ] and every other dictionary of the parent are as before; and
    the runner raises [CalledProcessError] exactly when the child exits with
    a status other than zero. *)
Theorem default_runner_environment (py : Runtime) (cmd : list string)
    (dir : option string) (extra : option (gmap string string)) (w : World) :
  let child_env := default ∅ extra ∪ deref w os_environ in
  let child := spawn py cmd dir child_env (fs w) in
  let r := default_subprocess_runner py cmd dir extra w in
  (∀ k, child_env !! k = match default ∅ extra !! k with
                         | Some v => Some v
                         | None => deref w os_environ !! k
                         end)
  ∧ (∀ l, l = os_environ ∨ l ∈ dom (dicts w) -> deref r.2 l = deref w l)
  ∧ fs r.2 = child.2
  ∧ r.1 = match child.1 with
          | Ret rc => if rc =? 0 then Ret tt
                      else Raise (CalledProcessError rc cmd)
          | Raise e => Raise e
          end
  ∧ (∀ rc, child.1 = Ret rc ->
       (r.1 = Raise (CalledProcessError rc cmd) ↔ rc ≠ 0)).
Proof.
  intros child_env child r.
  destruct (fresh_loc w) as [Hne Hnone].
  assert (Hr : r = check_call py cmd dir (fresh ({[os_environ]} ∪ dom (dicts w)))
                 (with_dicts (<[fresh ({[os_environ]} ∪ dom (dicts w))
                                := child_env]> (dicts w)) w))
    by apply default_runner_child_env.
  set (l' := fresh ({[os_environ]} ∪ dom (dicts w))) in *.
  unfold check_call in Hr.
  assert (Henv : deref (with_dicts (<[l' := child_env]> (dicts w)) w) l' = child_env).
  { unfold deref, with_dicts. simpl. by rewrite lookup_insert_eq. }
  rewrite Henv in Hr. simpl in Hr. fold child in Hr.
  assert (Hdicts : dicts r.2 = <[l' := child_env]> (dicts w)).
  { rewrite Hr. destruct child as [[rc | e] f]; reflexivity. }
  split; [| split; [| split; [| split]]].
  - intros k. unfold child_env. rewrite lookup_union.
    destruct (default ∅ extra !! k), (deref w os_environ !! k); reflexivity.
  - intros l Hl. unfold deref. rewrite Hdicts.
    rewrite lookup_insert_ne; [reflexivity |].
    intros ->. destruct Hl as [Hl | Hl]; [contradiction |].
    apply elem_of_dom in Hl as [x Hx]. congruence.
  - rewrite Hr. destruct child as [[rc | e] f]; reflexivity.
  - rewrite Hr. destruct child as [[rc | e] f]; reflexivity.
  - intros rc Hrc. rewrite Hr. destruct child as [[rc' | e] f]; simpl in *;
      [| discriminate].
    injection Hrc as Hrc. rewrite <- Hrc. clear rc Hrc.
    destruct (Z.eqb_spec rc' 0) as [Hz | Hnz]; simpl.
    + split; [discriminate | congruence].
    + split; [done | reflexivity].
Qed.

(** *** Absolute paths *)

Lemma isabs_inv (p : string) :
  posixpath.isabs p = true -> ∃ rest, p = String "/"%char rest.
Proof.
  destruct p as [| c rest]; [discriminate |].
  change (posixpath.isabs (String c rest))
    with (if ascii_dec "/" c then String.prefix "" rest else false).
  destruct (ascii_dec "/" c) as [<- |]; intros H; [eauto | discriminate H].
Qed.

Lemma isabs_slash (rest : string) : posixpath.isabs (String "/"%char rest) = true.
Proof.
  unfold posixpath.isabs, posixpath.startswith, posixpath.sep. simpl.
  destruct rest; reflexivity.
Qed.

Lemma normpath_isabs (p : string) :
  posixpath.isabs p = true -> posixpath.isabs (posixpath.normpath p) = true.
Proof.
  intros H. destruct (isabs_inv p H) as [rest ->].
  unfold posixpath.normpath.
  change (posixpath.startswith (String "/"%char rest) "/")
    with (posixpath.isabs (String "/"%char rest)).
  rewrite isabs_slash. cbn [String.eqb].
  destruct (_ && _)%bool; simpl; apply isabs_slash.
Qed.

Lemma abspath_isabs (cwd0 p : string) :
  posixpath.isabs cwd0 = true ->
  posixpath.isabs (posixpath.abspath cwd0 p) = true.
Proof.
  intros H. unfold posixpath.abspath. apply normpath_isabs.
  destruct (posixpath.isabs p) eqn:E; [exact E |].
  unfold posixpath.join. unfold posixpath.isabs in E. rewrite E.
  destruct (isabs_inv cwd0 H) as [rest ->].
  destruct (_ || _)%bool; simpl; apply isabs_slash.
Qed.

(** *** The input file *)

Lemma call_hook_launches_with (py : Runtime) (hook_name : string)
    (kwargs : list (string * json)) (s : state) (env : gmap string string) :
  hook_environ py (this s) s = (Ret env, s) ->
  fs (world s) !! scratch py s = None ->
  launches_with py (_call_hook py hook_name kwargs) s hook_name kwargs.
Proof.
  intros Henv Hnew. eexists. split; [| split].
  - apply (call_hook_launched py hook_name kwargs s env Henv Hnew).
  - reflexivity.
  - unfold launch_world, with_fs. simpl. apply lookup_insert_eq.
Qed.

(** C8. Each of the five hook methods launches its hook with an input file
    that is exactly [{"kwargs": ...}] of its keyword arguments: the
    directories in absolute form ([metadata_directory] of [build_wheel] only
    when given, [null] otherwise), [config_settings] as it was passed. *)
Theorem hooks_write_input (py : Runtime) (s : state) (env : gmap string string)
    (config_settings : json) (metadata_directory wheel_directory
      sdist_directory : string) (build_metadata_directory : option string) :
  hook_environ py (this s) s = (Ret env, s) ->
  fs (world s) !! scratch py s = None ->
  posixpath.isabs (cwd (world s)) = true ->
  let absolute := posixpath.abspath (cwd (world s)) in
  (∀ p, posixpath.isabs (absolute p) = true)
  ∧ launches_with py (get_requires_for_build_wheel py config_settings) s
      "get_requires_for_build_wheel"
      [("config_settings", config_settings)]
  ∧ launches_with py
      (prepare_metadata_for_build_wheel py metadata_directory config_settings) s
      "prepare_metadata_for_build_wheel"
      [("metadata_directory", JStr (absolute metadata_directory));
       ("config_settings", config_settings)]
  ∧ launches_with py
      (build_wheel py wheel_directory config_settings build_metadata_directory) s
      "build_wheel"
      [("wheel_directory", JStr (absolute wheel_directory));
       ("config_settings", config_settings);
       ("metadata_directory",
        match build_metadata_directory with
        | Some m => JStr (absolute m)
        | None => JNull
        end)]
  ∧ launches_with py (get_requires_for_build_sdist py config_settings) s
      "get_requires_for_build_sdist"
      [("config_settings", config_settings)]
  ∧ launches_with py (build_sdist py sdist_directory config_settings) s
      "build_sdist"
      [("sdist_directory", JStr (absolute sdist_directory));
       ("config_settings", config_settings)].
Proof.
  intros Henv Hnew Hcwd absolute.
  split; [intros p; by apply abspath_isabs |].
  split; [exact (call_hook_launches_with py _ _ s env Henv Hnew) |].
  split.
  { pose proof (call_hook_launches_with py "prepare_metadata_for_build_wheel"
                  [("metadata_directory", JStr (absolute metadata_directory));
                   ("config_settings", config_settings)] s env Henv Hnew) as H.
    unfold launches_with in *. exact H. }
  split.
  { pose proof (call_hook_launches_with py "build_wheel"
                  [("wheel_directory", JStr (absolute wheel_directory));
                   ("config_settings", config_settings);
                   ("metadata_directory",
                    match build_metadata_directory with
                    | Some m => JStr (absolute m)
                    | None => JNull
                    end)] s env Henv Hnew) as H.
    unfold launches_with in *.
    destruct build_metadata_directory; exact H. }
  split; [exact (call_hook_launches_with py _ _ s env Henv Hnew) |].
  pose proof (call_hook_launches_with py "build_sdist"
                [("sdist_directory", JStr (absolute sdist_directory));
                 ("config_settings", config_settings)] s env Henv Hnew) as H.
  unfold launches_with in *. exact H.
Qed.

(** *** The scoped override of the runner *)

(** A block that ends normally: the previous runner is put back. *)
Lemma subprocess_runner_restores {A : Type} (r : runner) (body : unit -> M A)
    (s s2 : state) (a : A) :
  body tt (overridden r s) = (Ret a, s2) ->
  with_ (subprocess_runner r) body s
  = (Ret (Some a), overridden (_subprocess_runner (this s)) s2).
Proof.
  intros H. unfold with_, subprocess_runner, mbind, M_bind, get_self,
    set_subprocess_runner, mret, M_ret. simpl.
  fold (overridden r s). rewrite H. reflexivity.
Qed.

(** A block that raises: the generator is resumed by [throw], the [yield]
    raises, and the assignment after it is never reached. *)
Lemma subprocess_runner_kept {A : Type} (r : runner) (body : unit -> M A)
    (s s2 : state) (e : exn) :
  body tt (overridden r s) = (Raise e, s2) ->
  with_ (subprocess_runner r) body s = (Raise e, s2).
Proof.
  intros H. unfold with_, subprocess_runner, mbind, M_bind, get_self,
    set_subprocess_runner, mret, M_ret. simpl.
  fold (overridden r s). rewrite H. reflexivity.
Qed.

(** C2. A caller whose hook calls succeed is given, for the extent of a
    [with] block, a runner that raises.  The hook call in the block raises,
    the block is left by that exception, and a hook call made after the
    block raises as well: the override is still installed. *)
Theorem override_survives_raise :
  let boom := RunnerError "boom" in
  let block := with_ (subprocess_runner (failing_runner boom))
                 (fun _ => get_requires_for_build_sdist py0 JNull)
                 (state0 py0 None) in
  (get_requires_for_build_sdist py0 JNull (state0 py0 None)).1
  = Ret (JArr [JStr "setuptools>=26"])
  ∧ block.1 = Raise boom
  ∧ (get_requires_for_build_sdist py0 JNull block.2).1 = Raise boom.
Proof. repeat split; vm_compute; reflexivity. Qed.

(** *** More runs of the model *)

Lemma default_runner_environment_witness :
  ((default_subprocess_runner (cpython3 None 1) cmd0 (Some "/proj")
      (Some environ0) world0).1
   = Raise (CalledProcessError 1 cmd0) ↔ 1 ≠ 0)
  ∧ deref (default_subprocess_runner (cpython3 None 1) cmd0 (Some "/proj")
             (Some environ0) world0).2 os_environ
    = deref world0 os_environ.
Proof.
  pose proof (default_runner_environment (cpython3 None 1) cmd0 (Some "/proj")
                (Some environ0) world0) as (_ & Hkeep & _ & _ & Hfail).
  split.
  - exact (Hfail 1 eq_refl).
  - exact (Hkeep os_environ (or_introl eq_refl)).
Defined.

Lemma hooks_write_input_witness :
  launches_with py0 (build_wheel py0 "dist" JNull (Some "build/meta"))
    (state0 py0 None) "build_wheel"
    [("wheel_directory", JStr "/home/dev/dist");
     ("config_settings", JNull);
     ("metadata_directory", JStr "/home/dev/build/meta")].
Proof.
  refine (proj1 (proj2 (proj2 (proj2
            (hooks_write_input py0 (state0 py0 None) environ0 JNull
               "meta" "dist" "sdist" (Some "build/meta") _ _ _))))).
  - reflexivity.
  - vm_compute. reflexivity.
  - vm_compute. reflexivity.
Defined.

Lemma markers_by_truthiness_witness :
  classify (this (state0 py0 None)) (JObj payload0) (state0 py0 None)
  = classify (this (state0 py0 None)) (JObj [("return_val", JInt 7)])
      (state0 py0 None).
Proof.
  refine (proj1 (markers_by_truthiness (this (state0 py0 None)) payload0
                   (state0 py0 None))
            "unsupported" (JBool false) _ _ _).
  - apply list_elem_of_here.
  - reflexivity.
  - reflexivity.
Defined.

(** *** What norm_and_check does guarantee *)

Lemma prefix_empty (s : string) : String.prefix "" s = true.
Proof. destruct s; reflexivity. Qed.

Lemma common_walk_prefix (s1 s2 : string) :
  String.prefix (posixpath.common_walk s1 s2) s1 = true
  ∧ String.prefix (posixpath.common_walk s1 s2) s2 = true.
Proof.
  revert s2. induction s1 as [| c s1 IH]; intros [| d s2]; simpl;
    try (split; reflexivity).
  destruct (Ascii.eqb c d) eqn:E; [| split; reflexivity].
  apply Ascii.eqb_eq in E. subst d. simpl.
  destruct (ascii_dec c c); [apply IH | contradiction].
Qed.

Lemma ltb_false_eq (a b : string) :
  String.ltb a b = false -> String.ltb b a = false -> a = b.
Proof.
  unfold String.ltb. rewrite (String.compare_antisym a b).
  destruct (String.compare b a) eqn:E; simpl; try discriminate.
  intros _ _. symmetry. by apply String.compare_eq_iff.
Qed.

(** A path equal to the common prefix of itself and another is a character
    prefix of the other. *)
Lemma commonprefix_eq_prefix (a b : string) :
  posixpath.commonprefix [a; b] = a -> String.prefix a b = true.
Proof.
  unfold posixpath.commonprefix, posixpath.py_min, posixpath.py_max. simpl.
  destruct (String.ltb b a) eqn:Eba, (String.ltb a b) eqn:Eab; intros H.
  - rewrite <- H at 1. apply common_walk_prefix.
  - rewrite <- H at 1. apply common_walk_prefix.
  - rewrite <- H at 1. apply common_walk_prefix.
  - pose proof (ltb_false_eq a b Eab Eba) as <-.
    rewrite <- H at 1. apply common_walk_prefix.
Qed.

(** An absolute request is refused. *)
Lemma norm_and_check_absolute (cwd0 source_tree requested : string) :
  posixpath.isabs requested = true ->
  norm_and_check cwd0 source_tree requested
  = Raise (ValueError "paths must be relative").
Proof. intros H. unfold norm_and_check. rewrite H. reflexivity. Qed.

(** What is returned is the normalized join, and it begins, character by
    character, with the absolute source tree. *)
Lemma norm_and_check_Ret (cwd0 source_tree requested p : string) :
  norm_and_check cwd0 source_tree requested = Ret p ->
  posixpath.isabs requested = false
  ∧ p = posixpath.normpath
          (posixpath.join (posixpath.abspath cwd0 source_tree) requested)
  ∧ posixpath.startswith p (posixpath.abspath cwd0 source_tree) = true.
Proof.
  unfold norm_and_check, posixpath.normcase, posixpath.startswith.
  destruct (posixpath.isabs requested); [discriminate |].
  destruct (String.eqb _ _) eqn:E; simpl; [| discriminate].
  intros [= <-]. repeat split.
  apply String.eqb_eq in E. by apply commonprefix_eq_prefix.
Qed.

(** The two escapes of the spec are refused. *)
Example norm_and_check_outside :
  norm_and_check "/" "/proj" "../outside"
  = Raise (ValueError "paths must be inside source tree")
  ∧ norm_and_check "/" "/proj" "../../etc"
    = Raise (ValueError "paths must be inside source tree")
  ∧ norm_and_check "/" "/proj" "backend/../vendor" = Ret "/proj/vendor".
Proof. repeat split; vm_compute; reflexivity. Qed.

(** *** norm_and_check, precisely *)

Lemma ascii_compare_refl (c : ascii) : Ascii.compare c c = Eq.
Proof. unfold Ascii.compare. apply N.compare_refl. Qed.

Lemma prefix_ltb (a b : string) :
  String.prefix a b = true -> String.ltb b a = false.
Proof.
  revert b. induction a as [| c a IH]; intros [| d b]; simpl; try done.
  destruct (ascii_dec c d) as [<- |]; [| discriminate].
  intros H. specialize (IH b H). unfold String.ltb in *. simpl.
  rewrite ascii_compare_refl. exact IH.
Qed.

Lemma common_walk_of_prefix (a b : string) :
  String.prefix a b = true -> posixpath.common_walk a b = a.
Proof.
  revert b. induction a as [| c a IH]; intros [| d b]; simpl; try done.
  destruct (ascii_dec c d) as [<- |]; [| discriminate].
  intros H. rewrite Ascii.eqb_refl, (IH b H). reflexivity.
Qed.

Lemma prefix_refl (a : string) : String.prefix a a = true.
Proof.
  induction a as [| c a IH]; simpl; [reflexivity |].
  destruct (ascii_dec c c); [exact IH | contradiction].
Qed.

Lemma commonprefix_of_prefix (a b : string) :
  String.prefix a b = true -> posixpath.commonprefix [a; b] = a.
Proof.
  intros H.
  unfold posixpath.commonprefix, posixpath.py_min, posixpath.py_max. simpl.
  rewrite (prefix_ltb a b H).
  destruct (String.ltb a b); apply common_walk_of_prefix;
    [exact H | apply prefix_refl].
Qed.

(** X1. [norm_and_check] in closed form: an absolute request is refused as
    not relative; a relative one is joined to the absolute source tree and
    normalized, and is returned exactly when the absolute source tree is a
    character prefix of the result; otherwise it is refused as outside the
    tree. *)
Theorem norm_and_check_closed_form (cwd0 source_tree requested : string) :
  norm_and_check cwd0 source_tree requested
  = let abs_source := posixpath.abspath cwd0 source_tree in
    let abs_requested :=
      posixpath.normpath (posixpath.join abs_source requested) in
    if posixpath.isabs requested
    then Raise (ValueError "paths must be relative")
    else if posixpath.startswith abs_requested abs_source
    then Ret abs_requested
    else Raise (ValueError "paths must be inside source tree").
Proof.
  unfold norm_and_check, posixpath.normcase, posixpath.startswith. cbv zeta.
  destruct (posixpath.isabs requested); [reflexivity |].
  set (a := posixpath.abspath cwd0 source_tree).
  set (b := posixpath.normpath (posixpath.join a requested)).
  destruct (String.prefix a b) eqn:P.
  - rewrite (commonprefix_of_prefix a b P), String.eqb_refl. reflexivity.
  - destruct (String.eqb (posixpath.commonprefix [a; b]) a) eqn:E;
      [| reflexivity].
    apply String.eqb_eq, commonprefix_eq_prefix in E. congruence.
Qed.

(** X2. With an absolute working directory, every path that
    [norm_and_check] returns is absolute. *)
Theorem norm_and_check_returns_absolute (cwd0 source_tree requested p : string) :
  posixpath.isabs cwd0 = true ->
  norm_and_check cwd0 source_tree requested = Ret p ->
  posixpath.isabs p = true.
Proof.
  intros Hcwd H. apply norm_and_check_Ret in H as (Hrel & -> & _).
  apply normpath_isabs.
  pose proof (abspath_isabs cwd0 source_tree Hcwd) as Ha.
  destruct (isabs_inv _ Ha) as [rest Hrest]. rewrite Hrest.
  unfold posixpath.join. unfold posixpath.isabs in Hrel. rewrite Hrel.
  destruct (_ || _)%bool; simpl; apply isabs_slash.
Qed.

Lemma norm_and_check_returns_absolute_witness :
  posixpath.isabs "/proj/vendor" = true.
Proof.
  apply (norm_and_check_returns_absolute "/" "/proj" "backend/../vendor"
           "/proj/vendor"); vm_compute; reflexivity.
Defined.

(** *** The constructor *)

Lemma norm_and_check_raises (cwd0 source_tree requested : string) (e : exn) :
  norm_and_check cwd0 source_tree requested = Raise e -> ∃ msg, e = ValueError msg.
Proof.
  unfold norm_and_check. repeat case_match; intros [= <-]; eauto.
Qed.

Lemma norm_and_check_each_Ret (cwd0 source_dir0 : string) (ps l : list string) :
  norm_and_check_each cwd0 source_dir0 ps = Ret l
  ↔ Forall2 (fun p a => norm_and_check cwd0 source_dir0 p = Ret a) ps l.
Proof.
  revert l. induction ps as [| p ps IH]; intros l; simpl.
  - split; [intros [= <-]; constructor | intros H; by inversion H].
  - split.
    + destruct (norm_and_check cwd0 source_dir0 p) as [a |] eqn:E; [| done].
      destruct (norm_and_check_each cwd0 source_dir0 ps) as [l' |]; [| done].
      intros [= <-]. constructor; [exact E | by apply IH].
    + intros H. inversion H as [| p' a ps' l' Ha Hl]; subst.
      rewrite Ha. apply IH in Hl. rewrite Hl. reflexivity.
Qed.

Lemma norm_and_check_each_Raise (cwd0 source_dir0 : string) (ps : list string)
    (p : string) (e : exn) :
  p ∈ ps -> norm_and_check cwd0 source_dir0 p = Raise e ->
  ∃ msg, norm_and_check_each cwd0 source_dir0 ps = Raise (ValueError msg).
Proof.
  intros Hin Hp. induction ps as [| q ps IH]; [by apply elem_of_nil in Hin |].
  simpl. destruct (norm_and_check cwd0 source_dir0 q) as [a | e'] eqn:E.
  - apply elem_of_cons in Hin as [-> | Hin]; [congruence |].
    destruct (IH Hin) as [msg ->]. eauto.
  - destruct (norm_and_check_raises _ _ _ _ E) as [msg ->]. eauto.
Qed.

(** X3. A construction that succeeds stores the absolute source directory,
    the backend name as given, the default runner, and as backend path the
    results of [norm_and_check] on the entries, in order; and such a
    construction succeeds whenever every entry is accepted. *)
Theorem init_stores_validated (py : Runtime) (w : World)
    (source_dir0 build_backend0 : string) (ps l : list string) :
  Forall2 (fun p a =>
             norm_and_check (cwd w) (posixpath.abspath (cwd w) source_dir0) p
             = Ret a) ps l
  ↔ __init__ py w source_dir0 build_backend0 (Some ps)
    = Ret {| source_dir := posixpath.abspath (cwd w) source_dir0;
             build_backend := build_backend0;
             backend_path := Some l;
             _subprocess_runner := default_subprocess_runner py |}.
Proof.
  rewrite <- norm_and_check_each_Ret. unfold __init__.
  destruct ps as [| p ps]; simpl truthy_path; cbv iota.
  - simpl. split; [intros [= <-]; reflexivity | intros [= <-]; reflexivity].
  - change (default [] (Some (p :: ps))) with (p :: ps).
    destruct (norm_and_check_each _ _ (p :: ps)) as [l' |];
      split; intros H; try discriminate; simplify_eq; reflexivity.
Qed.

(** X4. One entry that [norm_and_check] refuses makes the construction fail
    with a [ValueError], wherever the entry stands in the backend path. *)
Theorem init_rejects_bad_entry (py : Runtime) (w : World)
    (source_dir0 build_backend0 : string) (ps : list string) (p : string)
    (e : exn) :
  p ∈ ps ->
  norm_and_check (cwd w) (posixpath.abspath (cwd w) source_dir0) p = Raise e ->
  ∃ msg, __init__ py w source_dir0 build_backend0 (Some ps)
         = Raise (ValueError msg).
Proof.
  intros Hin Hp. unfold __init__.
  destruct ps as [| q ps]; [by apply elem_of_nil in Hin |].
  simpl truthy_path. cbv iota.
  change (default [] (Some (q :: ps))) with (q :: ps).
  destruct (norm_and_check_each_Raise _ _ _ _ _ Hin Hp) as [msg ->]. eauto.
Qed.

Lemma init_rejects_bad_entry_witness :
  ∃ msg, __init__ py0 world0 "/proj" "x" (Some ["backend"; "/etc"; "vendor"])
         = Raise (ValueError msg).
Proof.
  apply (init_rejects_bad_entry py0 world0 "/proj" "x"
           ["backend"; "/etc"; "vendor"] "/etc"
           (ValueError "paths must be relative")).
  - apply list_elem_of_further, list_elem_of_here.
  - vm_compute. reflexivity.
Defined.

(** *** The invocation routine: failures and frame *)

(** The outcome of a call whose runner raised. *)
Lemma call_hook_raised (py : Runtime) (hook_name : string)
    (kwargs : list (string * json)) (s : state) (env : gmap string string)
    (e : exn) (w2 : World) :
  hook_environ py (this s) s = (Ret env, s) ->
  fs (world s) !! scratch py s = None ->
  _subprocess_runner (this s) (hook_cmd py hook_name s)
    (Some (source_dir (this s))) (Some env) (launch_world py kwargs s)
  = (Raise e, w2) ->
  (_call_hook py hook_name kwargs s).1
  = match fs w2 !! scratch py s with
    | Some _ => Raise e
    | None => Raise (OSError "No such file or directory")
    end.
Proof.
  intros Henv Hnew Hrun.
  unfold _call_hook, mbind, M_bind, get_self. rewrite Henv.
  unfold with_, tempdir, mbind, M_bind, mkdtemp, mret, M_ret.
  fold (scratch py s). rewrite Hnew.
  unfold write_json, call_runner. simpl.
  destruct (_subprocess_runner (this s) _ _ _ _) as [o w'] eqn:E.
  change (_subprocess_runner (this s) (hook_cmd py hook_name s)
            (Some (source_dir (this s))) (Some env)
            (launch_world py kwargs s) = (o, w')) in E.
  rewrite Hrun in E. symmetry in E. simplify_eq.
  unfold try_finally, rmtree, yield_, raise. simpl.
  destruct (fs w2 !! scratch py s); reflexivity.
Qed.

(** X5. When the runner raises, [_call_hook] raises the same exception,
    having removed the scratch directory; but when the runner has itself
    removed the scratch directory, the [rmtree] of the [finally] clause
    fails and its [OSError] replaces the runner's exception. *)
Theorem call_hook_runner_raises (py : Runtime) (hook_name : string)
    (kwargs : list (string * json)) (s : state) (env : gmap string string)
    (e : exn) (w2 : World) :
  hook_environ py (this s) s = (Ret env, s) ->
  fs (world s) !! scratch py s = None ->
  _subprocess_runner (this s) (hook_cmd py hook_name s)
    (Some (source_dir (this s))) (Some env) (launch_world py kwargs s)
  = (Raise e, w2) ->
  (_call_hook py hook_name kwargs s).1
  = match fs w2 !! scratch py s with
    | Some _ => Raise e
    | None => Raise (OSError "No such file or directory")
    end.
Proof. apply call_hook_raised. Qed.

Lemma call_hook_runner_raises_witness :
  (_call_hook py0 "build_wheel" kwargs0
     {| this := {| source_dir := "/proj"; build_backend := "x";
                   backend_path := None;
                   _subprocess_runner := failing_runner (RunnerError "boom") |};
        world := world0; launched := [] |}).1
  = Raise (RunnerError "boom").
Proof.
  refine (call_hook_runner_raises py0 "build_wheel" kwargs0
            {| this := {| source_dir := "/proj"; build_backend := "x";
                          backend_path := None;
                          _subprocess_runner :=
                            failing_runner (RunnerError "boom") |};
               world := world0; launched := [] |}
            {[ "PEP517_BUILD_BACKEND" := "x" ]} (RunnerError "boom")
            (launch_world py0 kwargs0 (state0 py0 None)) _ _ _).
  - reflexivity.
  - vm_compute. reflexivity.
  - reflexivity.
Defined.

(** X6. When the runner has returned and [output.json] holds a JSON value
    that is not an object, [_call_hook] raises [AttributeError]: the value
    has no [get]. *)
Theorem call_hook_output_not_object (py : Runtime) (hook_name : string)
    (kwargs : list (string * json)) (s : state) (env : gmap string string)
    (w2 : World) (data : json) :
  hook_environ py (this s) s = (Ret env, s) ->
  fs (world s) !! scratch py s = None ->
  _subprocess_runner (this s) (hook_cmd py hook_name s)
    (Some (source_dir (this s))) (Some env) (launch_world py kwargs s)
  = (Ret tt, w2) ->
  is_Some (fs w2 !! scratch py s) ->
  fs w2 !! posixpath.join (scratch py s) "output.json" = Some (File data) ->
  (∀ d, data ≠ JObj d) ->
  (_call_hook py hook_name kwargs s).1 = Raise (AttributeError "get").
Proof.
  intros Henv Hnew Hrun Hdir Hout Hno.
  rewrite (call_hook_replied py hook_name kwargs s s env w2 data
             Henv Hnew Hrun Hdir Hout).
  destruct data; try reflexivity. by destruct (Hno members).
Qed.

Lemma call_hook_output_not_object_witness :
  (_call_hook (cpython3 (Some (JArr [JStr "wheel"])) 0) "build_wheel" kwargs0
     (state0 (cpython3 (Some (JArr [JStr "wheel"])) 0) None)).1
  = Raise (AttributeError "get").
Proof.
  refine (call_hook_output_not_object
            (cpython3 (Some (JArr [JStr "wheel"])) 0) "build_wheel" kwargs0
            (state0 (cpython3 (Some (JArr [JStr "wheel"])) 0) None) environ0
            (default_subprocess_runner (cpython3 (Some (JArr [JStr "wheel"])) 0)
               (hook_cmd (cpython3 (Some (JArr [JStr "wheel"])) 0) "build_wheel"
                  (state0 (cpython3 (Some (JArr [JStr "wheel"])) 0) None))
               (Some "/proj") (Some environ0)
               (launch_world (cpython3 (Some (JArr [JStr "wheel"])) 0) kwargs0
                  (state0 (cpython3 (Some (JArr [JStr "wheel"])) 0) None))).2
            (JArr [JStr "wheel"]) _ _ _ _ _ _).
  - reflexivity.
  - vm_compute. reflexivity.
  - vm_compute. reflexivity.
  - eexists. vm_compute. reflexivity.
  - vm_compute. reflexivity.
  - intros d. discriminate.
Defined.

(** X7. On Python 2 a backend name with a character outside ASCII makes
    [_call_hook] raise [UnicodeEncodeError] before anything is done: no
    directory is created and nothing is launched. *)
Theorem call_hook_py2_non_ascii (py : Runtime) (hook_name : string)
    (kwargs : list (string * json)) (s : state) (c : ascii) :
  version_major py = 2 ->
  c ∈ list_ascii_of_string (build_backend (this s)) ->
  (128 <= nat_of_ascii c)%nat ->
  _call_hook py hook_name kwargs s = (Raise (UnicodeEncodeError "ascii"), s).
Proof.
  intros Hv Hc Hbig.
  assert (He : encode_ASCII (build_backend (this s))
               = Raise (UnicodeEncodeError "ascii")).
  { unfold encode_ASCII.
    destruct (forallb _ _) eqn:F; [| reflexivity].
    rewrite forallb_forall in F.
    apply list_elem_of_In, F, Nat.ltb_lt in Hc. lia. }
  unfold _call_hook, hook_environ, mbind, M_bind, get_self, lift.
  rewrite Hv. simpl. rewrite He. reflexivity.
Qed.

Lemma call_hook_py2_non_ascii_witness :
  _call_hook cpython2 "build_wheel" kwargs0 state_latin1
  = (Raise (UnicodeEncodeError "ascii"), state_latin1).
Proof.
  apply (call_hook_py2_non_ascii cpython2 "build_wheel" kwargs0 state_latin1
           "233"%char).
  - reflexivity.
  - apply list_elem_of_here.
  - vm_compute. lia.
Defined.

Lemma length_append (a b : string) :
  String.length (String.append a b) = (String.length a + String.length b)%nat.
Proof. induction a as [| c a IH]; simpl; [reflexivity | by rewrite IH]. Qed.

(** A file joined to a directory is never the directory itself. *)
Lemma join_ne (td name : string) :
  posixpath.startswith name "/" = false -> name ≠ "" ->
  posixpath.join td name ≠ td.
Proof.
  intros Hrel Hne E. apply (f_equal String.length) in E.
  unfold posixpath.join, posixpath.sep in E. rewrite Hrel in E.
  assert (0 < String.length name)%nat by (destruct name; simpl; [done | lia]).
  destruct (_ || _)%bool; rewrite !length_append in E; simpl in E; lia.
Qed.

(** X8. What the runner is called with: the command line is the
    interpreter, the in-process script, the hook name and the scratch
    directory; the working directory is the caller's source directory; the
    runner is the one installed in the caller.  The world it starts in is
    the world of the call with the scratch directory created and
    [input.json] written: every other path, the working directory and all
    dictionaries are as they were. *)
Theorem call_hook_launch_frame (py : Runtime) (hook_name : string)
    (kwargs : list (string * json)) (s : state) (l : launch) :
  launched (_call_hook py hook_name kwargs s).2 = (launched s ++ [l])%list ->
  l_runner l = _subprocess_runner (this s)
  ∧ l_cmd l = [sys_executable py; _in_proc_script py; hook_name; scratch py s]
  ∧ l_cwd l = Some (source_dir (this s))
  ∧ fs (l_world l) !! scratch py s = Some Dir
  ∧ (∀ p, p ≠ scratch py s ->
          p ≠ posixpath.join (scratch py s) "input.json" ->
          fs (l_world l) !! p = fs (world s) !! p)
  ∧ cwd (l_world l) = cwd (world s)
  ∧ dicts (l_world l) = dicts (world s).
Proof.
  intros H. apply call_hook_launches in H as (env & _ & _ & ->). simpl.
  repeat split.
  - rewrite lookup_insert_ne by (by apply join_ne). apply lookup_insert_eq.
  - intros p Hp Hq. by rewrite !lookup_insert_ne.
Qed.

Lemma call_hook_launch_frame_witness :
  l_cwd (launch0 None environ0) = Some "/proj"
  ∧ fs (l_world (launch0 None environ0)) !! "/tmp/tmpk3x9" = Some Dir.
Proof.
  pose proof (call_hook_launch_frame py0 "get_requires_for_build_sdist"
                kwargs0 (state0 py0 None) (launch0 None environ0) eq_refl)
    as (_ & _ & H1 & H2 & _).
  split; [exact H1 | exact H2].
Defined.

Lemma call_hook_this (py : Runtime) (hook_name : string)
    (kwargs : list (string * json)) (s : state) :
  this (_call_hook py hook_name kwargs s).2 = this s.
Proof.
  unfold _call_hook, mbind, M_bind, get_self.
  pose proof (hook_environ_state py (this s) s) as Hs.
  destruct (hook_environ py (this s) s) as [[env | e] s0]; simpl in Hs;
    subst s0; [| reflexivity].
  unfold with_, tempdir, mbind, M_bind, mkdtemp, mret, M_ret.
  fold (scratch py s).
  destruct (fs (world s) !! scratch py s); [reflexivity |].
  unfold write_json, call_runner. simpl.
  destruct (_subprocess_runner (this s) _ _ _ _) as [[[] | e] w2]; simpl;
    unfold read_json, classify, try_finally, rmtree, yield_, raise, mret, M_ret;
    simpl; repeat (case_match; simpl in *; simplify_eq); reflexivity.
Qed.

(** X9. A hook call leaves the caller as it was — source directory, backend
    name, backend path and installed runner — and calls the runner at most
    once. *)
Theorem call_hook_keeps_caller (py : Runtime) (hook_name : string)
    (kwargs : list (string * json)) (s : state) :
  this (_call_hook py hook_name kwargs s).2 = this s
  ∧ (launched (_call_hook py hook_name kwargs s).2 = launched s
     ∨ ∃ l, launched (_call_hook py hook_name kwargs s).2
            = (launched s ++ [l])%list).
Proof.
  split; [apply call_hook_this |].
  pose proof (hook_environ_state py (this s) s) as Hs.
  destruct (hook_environ py (this s) s) as [[env | e] s0] eqn:He;
    simpl in Hs; subst s0.
  - destruct (fs (world s) !! scratch py s) eqn:Hn.
    + left. apply call_hook_not_launched. right. eauto.
    + right. eexists. by apply (call_hook_launched py hook_name kwargs s env).
  - left. apply call_hook_not_launched. left. eauto.
Qed.

(** *** tempdir as a context manager *)

Lemma rmtree_lookup (td p : string) (s : state) :
  is_Some (fs (world s) !! td) ->
  fs (world (rmtree td s).2) !! p
  = if below td p then None else fs (world s) !! p.
Proof.
  intros [n Hn]. unfold rmtree. rewrite Hn. simpl.
  destruct (below td p) eqn:B.
  - apply map_lookup_filter_None. right. intros x _. simpl. congruence.
  - destruct (fs (world s) !! p) as [x |] eqn:E.
    + by apply map_lookup_filter_Some_2.
    + apply map_lookup_filter_None. by left.
Qed.

(** X10. A block run under [tempdir()] that leaves the directory in place:
    its value or its exception is the outcome of the [with] statement, and
    afterwards the directory and everything below it are gone, while every
    other path is as the block left it. *)
Theorem with_tempdir_outcome (py : Runtime) {A : Type} (body : string -> M A)
    (s s2 : state) (o : outcome A) :
  fs (world s) !! scratch py s = None ->
  body (scratch py s) (scratch_created py s) = (o, s2) ->
  is_Some (fs (world s2) !! scratch py s) ->
  (with_ (tempdir py) body s).1
  = match o with Ret a => Ret (Some a) | Raise e => Raise e end
  ∧ this (with_ (tempdir py) body s).2 = this s2
  ∧ launched (with_ (tempdir py) body s).2 = launched s2
  ∧ ∀ p, fs (world (with_ (tempdir py) body s).2) !! p
         = if below (scratch py s) p then None else fs (world s2) !! p.
Proof.
  intros Hnew Hbody Hdir.
  pose proof (rmtree_lookup (scratch py s)) as Hlook.
  unfold with_, tempdir, mbind, M_bind, mkdtemp, mret, M_ret.
  fold (scratch py s). rewrite Hnew. fold (scratch_created py s).
  rewrite Hbody. unfold try_finally, yield_, raise, mret, M_ret.
  destruct Hdir as [n Hn].
  destruct o as [a | e]; simpl;
    (destruct (rmtree (scratch py s) s2) as [[[] | e'] s3] eqn:R;
     [| unfold rmtree in R; rewrite Hn in R; discriminate]);
    simpl; repeat split;
    try (unfold rmtree in R; rewrite Hn in R; by simplify_eq);
    intros p; specialize (Hlook p s2 (ex_intro _ n Hn)); by rewrite R in Hlook.
Qed.

(** X11. A block that removes the scratch directory itself makes the
    [with] statement raise the [OSError] of [rmtree], whether the block
    returned a value or raised. *)
Theorem with_tempdir_removed_by_block (py : Runtime) {A : Type}
    (body : string -> M A) (s s2 : state) (o : outcome A) :
  fs (world s) !! scratch py s = None ->
  body (scratch py s) (scratch_created py s) = (o, s2) ->
  fs (world s2) !! scratch py s = None ->
  with_ (tempdir py) body s
  = (Raise (OSError "No such file or directory"), s2).
Proof.
  intros Hnew Hbody Hgone.
  unfold with_, tempdir, mbind, M_bind, mkdtemp, mret, M_ret.
  fold (scratch py s). rewrite Hnew. fold (scratch_created py s).
  rewrite Hbody. unfold try_finally, yield_, raise, rmtree, mret, M_ret.
  destruct o; simpl; rewrite Hgone; reflexivity.
Qed.

Lemma with_tempdir_outcome_witness :
  fs (world (with_ (tempdir py0) leave_note (state0 py0 None)).2)
    !! "/tmp/tmpk3x9/note.json" = None.
Proof.
  refine (proj2 (proj2 (proj2
            (with_tempdir_outcome py0 leave_note (state0 py0 None)
               (leave_note "/tmp/tmpk3x9" (scratch_created py0 (state0 py0 None))).2
               (Ret tt) _ _ _))) "/tmp/tmpk3x9/note.json").
  - vm_compute. reflexivity.
  - reflexivity.
  - eexists. vm_compute. reflexivity.
Defined.

Lemma with_tempdir_removed_by_block_witness :
  (with_ (tempdir py0) rmtree (state0 py0 None)).1
  = Raise (OSError "No such file or directory").
Proof.
  refine (f_equal fst
            (with_tempdir_removed_by_block py0 rmtree (state0 py0 None)
               (rmtree "/tmp/tmpk3x9" (scratch_created py0 (state0 py0 None))).2
               (Ret tt) _ _ _)).
  - vm_compute. reflexivity.
  - reflexivity.
  - vm_compute. reflexivity.
Defined.

(** *** The scoped override, when the block returns *)

Lemma hook_environ_overridden (py : Runtime) (r : runner) (s : state)
    (env : gmap string string) :
  hook_environ py (this s) s = (Ret env, s) ->
  hook_environ py (this (overridden r s)) (overridden r s)
  = (Ret env, overridden r s).
Proof.
  unfold hook_environ, mbind, M_bind, mret, M_ret, lift. simpl.
  destruct (version_major py =? 2).
  - destruct (encode_ASCII (build_backend (this s))); [| discriminate].
    destruct (truthy_path (backend_path (this s))).
    + destruct (fs_encode py _); [| discriminate]. by intros [= <-].
    + by intros [= <-].
  - destruct (truthy_path (backend_path (this s))); by intros [= <-].
Qed.

(** X12. A hook call made inside [with hooks.subprocess_runner(r)] is
    launched through [r], and when the call returns, the runner installed
    after the block is the one that was installed before it. *)
Theorem override_in_scope (py : Runtime) (r : runner) (hook_name : string)
    (kwargs : list (string * json)) (s : state) (env : gmap string string) :
  hook_environ py (this s) s = (Ret env, s) ->
  fs (world s) !! scratch py s = None ->
  let block := with_ (subprocess_runner r)
                 (fun _ => _call_hook py hook_name kwargs) s in
  (∃ l, launched block.2 = (launched s ++ [l])%list ∧ l_runner l = r)
  ∧ (∀ v, block.1 = Ret v ->
          _subprocess_runner (this block.2) = _subprocess_runner (this s)).
Proof.
  intros Henv Hnew block.
  pose proof (hook_environ_overridden py r s env Henv) as Henv'.
  pose proof (call_hook_launched py hook_name kwargs (overridden r s) env
                Henv' Hnew) as Hl.
  pose proof (call_hook_this py hook_name kwargs (overridden r s)) as Ht.
  destruct (_call_hook py hook_name kwargs (overridden r s)) as [[a | e] s2]
    eqn:E; simpl in Hl, Ht.
  - assert (Hb : block = (Ret (Some a), overridden (_subprocess_runner (this s)) s2))
      by (apply subprocess_runner_restores; exact E).
    rewrite Hb. simpl. split; [eauto | reflexivity].
  - assert (Hb : block = (Raise e, s2))
      by (apply subprocess_runner_kept; exact E).
    rewrite Hb. simpl. split; [eauto | discriminate].
Qed.

Lemma override_in_scope_witness :
  ∃ l, launched (with_ (subprocess_runner (failing_runner (RunnerError "boom")))
                   (fun _ => _call_hook py0 "build_sdist" kwargs0)
                   (state0 py0 None)).2
       = ([] ++ [l])%list
       ∧ l_runner l = failing_runner (RunnerError "boom").
Proof.
  refine (proj1 (override_in_scope py0 (failing_runner (RunnerError "boom"))
                   "build_sdist" kwargs0 (state0 py0 None) environ0 _ _)).
  - reflexivity.
  - vm_compute. reflexivity.
Defined.

(** X13. Overrides nest as a stack: when an inner block that installs [r2]
    returns inside an outer block that installs [r1], the runner installed
    after the inner block is [r1], and after the outer block it is the one
    that was installed at the start. *)
Theorem nested_overrides_restore {A : Type} (r1 r2 : runner)
    (body : unit -> M A) (s s2 : state) (a : A) :
  body tt (overridden r2 s) = (Ret a, s2) ->
  with_ (subprocess_runner r1)
    (fun _ => with_ (subprocess_runner r2) body;;
              self ← get_self; mret (_subprocess_runner self)) s
  = (Ret (Some r1), overridden (_subprocess_runner (this s)) s2).
Proof.
  intros H.
  rewrite (subprocess_runner_restores r1 _ s (overridden r1 s2) r1);
    [reflexivity |].
  unfold mbind, M_bind.
  rewrite (subprocess_runner_restores r2 body (overridden r1 s) s2 a H).
  reflexivity.
Qed.

Lemma nested_overrides_restore_witness :
  with_ (subprocess_runner (failing_runner (RunnerError "outer")))
    (fun _ => with_ (subprocess_runner (failing_runner (RunnerError "inner")))
                (fun _ => mret tt);;
              self ← get_self; mret (_subprocess_runner self))
    (state0 py0 None)
  = (Ret (Some (failing_runner (RunnerError "outer"))),
     overridden (default_subprocess_runner py0)
       (overridden (failing_runner (RunnerError "inner")) (state0 py0 None))).
Proof.
  apply (nested_overrides_restore (failing_runner (RunnerError "outer"))
           (failing_runner (RunnerError "inner")) (fun _ => mret tt)
           (state0 py0 None)
           (overridden (failing_runner (RunnerError "inner")) (state0 py0 None))
           tt).
  reflexivity.
Defined.

(** *** The default runner under the hook caller *)

(** What a call of the default runner amounts to. *)
Lemma default_runner_run (py : Runtime) (cmd : list string)
    (dir : option string) (extra : option (gmap string string)) (w : World)
    (o : outcome Z) (f : gmap string node) :
  spawn py cmd dir (default ∅ extra ∪ deref w os_environ) (fs w) = (o, f) ->
  (default_subprocess_runner py cmd dir extra w).1
  = match o with
    | Ret rc => if rc =? 0 then Ret tt else Raise (CalledProcessError rc cmd)
    | Raise e => Raise e
    end
  ∧ fs (default_subprocess_runner py cmd dir extra w).2 = f
  ∧ cwd (default_subprocess_runner py cmd dir extra w).2 = cwd w.
Proof.
  intros H. rewrite default_runner_child_env. unfold check_call.
  set (l' := fresh ({[os_environ]} ∪ dom (dicts w))).
  assert (Henv : deref (with_dicts (<[l' := default ∅ extra ∪ deref w os_environ]>
                                      (dicts w)) w) l'
                 = default ∅ extra ∪ deref w os_environ).
  { unfold deref, with_dicts. simpl. by rewrite lookup_insert_eq. }
  rewrite Henv. simpl. rewrite H. destruct o; simpl; done.
Qed.

(** X14. Called without an overlay — [extra_environ] is [None] or empty —
    the default runner launches the child with exactly the entries of
    [os.environ]. *)
Theorem default_runner_no_overlay (py : Runtime) (cmd : list string)
    (dir : option string) (extra : option (gmap string string)) (w : World) :
  extra = None ∨ extra = Some ∅ ->
  (default_subprocess_runner py cmd dir extra w).1
  = match (spawn py cmd dir (deref w os_environ) (fs w)).1 with
    | Ret rc => if rc =? 0 then Ret tt else Raise (CalledProcessError rc cmd)
    | Raise e => Raise e
    end
  ∧ fs (default_subprocess_runner py cmd dir extra w).2
    = (spawn py cmd dir (deref w os_environ) (fs w)).2.
Proof.
  intros Hx.
  assert (He : default ∅ extra ∪ deref w os_environ = deref w os_environ)
    by (destruct Hx as [-> | ->]; simpl; apply (left_id_L ∅ (∪))).
  destruct (spawn py cmd dir (deref w os_environ) (fs w)) as [o f] eqn:E.
  rewrite <- He in E.
  destruct (default_runner_run py cmd dir extra w o f E) as (H1 & H2 & _).
  simpl. split; assumption.
Qed.

Lemma default_runner_no_overlay_witness :
  (default_subprocess_runner (cpython3 None 3) cmd0 None None world0).1
  = Raise (CalledProcessError 3 cmd0).
Proof.
  refine (proj1 (default_runner_no_overlay (cpython3 None 3) cmd0 None None
                   world0 _)).
  left. reflexivity.
Defined.

Lemma default_runner_under_hook (py : Runtime) (hook_name : string)
    (kwargs : list (string * json)) (s : state) (env : gmap string string)
    (o : outcome Z) (f : gmap string node) :
  _subprocess_runner (this s) = default_subprocess_runner py ->
  spawn py (hook_cmd py hook_name s) (Some (source_dir (this s)))
    (env ∪ deref (world s) os_environ) (fs (launch_world py kwargs s))
  = (o, f) ->
  ∃ w2, _subprocess_runner (this s) (hook_cmd py hook_name s)
          (Some (source_dir (this s))) (Some env) (launch_world py kwargs s)
        = (match o with
           | Ret rc => if rc =? 0 then Ret tt
                       else Raise (CalledProcessError rc (hook_cmd py hook_name s))
           | Raise e => Raise e
           end, w2)
        ∧ fs w2 = f.
Proof.
  intros Hr Hs. rewrite Hr.
  destruct (default_runner_run py (hook_cmd py hook_name s)
              (Some (source_dir (this s))) (Some env)
              (launch_world py kwargs s) o f Hs) as (H1 & H2 & _).
  destruct (default_subprocess_runner py _ _ _ _) as [o' w2].
  simpl in H1, H2. subst o'. eauto.
Qed.

(** X15. With the default runner installed, a hook whose child exits with a
    status other than zero makes the hook call raise [CalledProcessError]
    with that status and the command line of the call; the output file is
    not looked at. *)
Theorem hook_nonzero_exit (py : Runtime) (hook_name : string)
    (kwargs : list (string * json)) (s : state) (env : gmap string string)
    (rc : Z) (f : gmap string node) :
  _subprocess_runner (this s) = default_subprocess_runner py ->
  hook_environ py (this s) s = (Ret env, s) ->
  fs (world s) !! scratch py s = None ->
  spawn py (hook_cmd py hook_name s) (Some (source_dir (this s)))
    (env ∪ deref (world s) os_environ) (fs (launch_world py kwargs s))
  = (Ret rc, f) ->
  rc ≠ 0 ->
  is_Some (f !! scratch py s) ->
  (_call_hook py hook_name kwargs s).1
  = Raise (CalledProcessError rc
             [sys_executable py; _in_proc_script py; hook_name; scratch py s]).
Proof.
  intros Hr Henv Hnew Hs Hrc [n Hn].
  destruct (default_runner_under_hook py hook_name kwargs s env _ f Hr Hs)
    as (w2 & Hrun & <-).
  apply Z.eqb_neq in Hrc. rewrite Hrc in Hrun.
  rewrite (call_hook_raised py hook_name kwargs s env _ w2 Henv Hnew Hrun).
  rewrite Hn. reflexivity.
Qed.

(** X16. With the default runner installed, a hook whose child exits with
    status zero having written [{"return_val": v}] as [output.json] makes
    the hook call return exactly [v]. *)
Theorem hook_returns_value (py : Runtime) (hook_name : string)
    (kwargs : list (string * json)) (s : state) (env : gmap string string)
    (v : json) (f : gmap string node) :
  _subprocess_runner (this s) = default_subprocess_runner py ->
  hook_environ py (this s) s = (Ret env, s) ->
  fs (world s) !! scratch py s = None ->
  spawn py (hook_cmd py hook_name s) (Some (source_dir (this s)))
    (env ∪ deref (world s) os_environ) (fs (launch_world py kwargs s))
  = (Ret 0, f) ->
  is_Some (f !! scratch py s) ->
  f !! posixpath.join (scratch py s) "output.json"
  = Some (File (JObj [("return_val", v)])) ->
  (_call_hook py hook_name kwargs s).1 = Ret v.
Proof.
  intros Hr Henv Hnew Hs Hdir Hout.
  destruct (default_runner_under_hook py hook_name kwargs s env _ f Hr Hs)
    as (w2 & Hrun & <-).
  simpl in Hrun.
  rewrite (call_hook_replied py hook_name kwargs s s env w2 _
             Henv Hnew Hrun Hdir Hout).
  reflexivity.
Qed.

Lemma hook_nonzero_exit_witness :
  (_call_hook (cpython3 None 1) "build_wheel" kwargs0
     (state0 (cpython3 None 1) None)).1
  = Raise (CalledProcessError 1 cmd0).
Proof.
  refine (hook_nonzero_exit (cpython3 None 1) "build_wheel" kwargs0
            (state0 (cpython3 None 1) None) environ0 1
            (fs (launch_world (cpython3 None 1) kwargs0
                   (state0 (cpython3 None 1) None))) _ _ _ _ _ _).
  - reflexivity.
  - reflexivity.
  - vm_compute. reflexivity.
  - reflexivity.
  - discriminate.
  - eexists. vm_compute. reflexivity.
Defined.

Lemma hook_returns_value_witness :
  (_call_hook py0 "get_requires_for_build_sdist" kwargs0 (state0 py0 None)).1
  = Ret (JArr [JStr "setuptools>=26"]).
Proof.
  refine (hook_returns_value py0 "get_requires_for_build_sdist" kwargs0
            (state0 py0 None) environ0 (JArr [JStr "setuptools>=26"])
            (<["/tmp/tmpk3x9/output.json" := File reply_requires]>
               (fs (launch_world py0 kwargs0 (state0 py0 None)))) _ _ _ _ _ _).
  - reflexivity.
  - reflexivity.
  - vm_compute. reflexivity.
  - reflexivity.
  - eexists. vm_compute. reflexivity.
  - vm_compute. reflexivity.
Defined.

(** X17. With the default runner installed and a child that exits with
    status zero, the three failure files of the protocol raise their
    exceptions: [{"unsupported": true, "traceback": t}] raises
    [UnsupportedOperation] with [t]; [{"no_backend": true, "traceback": t}]
    raises [BackendUnavailable] with [t]; and
    [{"backend_invalid": true, "backend_error": t}] raises [BackendInvalid]
    with the caller's backend name and backend path and [t]. *)
Theorem hook_reports_failure (py : Runtime) (hook_name : string)
    (kwargs : list (string * json)) (s : state) (env : gmap string string)
    (t : json) (f : gmap string node) (d : list (string * json)) :
  _subprocess_runner (this s) = default_subprocess_runner py ->
  hook_environ py (this s) s = (Ret env, s) ->
  fs (world s) !! scratch py s = None ->
  spawn py (hook_cmd py hook_name s) (Some (source_dir (this s)))
    (env ∪ deref (world s) os_environ) (fs (launch_world py kwargs s))
  = (Ret 0, f) ->
  is_Some (f !! scratch py s) ->
  f !! posixpath.join (scratch py s) "output.json" = Some (File (JObj d)) ->
  (d = [("unsupported", JBool true); ("traceback", t)] ->
   (_call_hook py hook_name kwargs s).1 = Raise (UnsupportedOperation t))
  ∧ (d = [("no_backend", JBool true); ("traceback", t)] ->
     (_call_hook py hook_name kwargs s).1 = Raise (BackendUnavailable t))
  ∧ (d = [("backend_invalid", JBool true); ("backend_error", t)] ->
     (_call_hook py hook_name kwargs s).1
     = Raise (BackendInvalid (build_backend (this s)) (backend_path (this s)) t)).
Proof.
  intros Hr Henv Hnew Hs Hdir Hout.
  destruct (default_runner_under_hook py hook_name kwargs s env _ f Hr Hs)
    as (w2 & Hrun & <-).
  simpl in Hrun.
  rewrite (call_hook_replied py hook_name kwargs s s env w2 _
             Henv Hnew Hrun Hdir Hout).
  repeat split; intros ->; reflexivity.
Qed.

Lemma hook_reports_failure_witness :
  (_call_hook (cpython3 (Some (JObj [("unsupported", JBool true);
                                     ("traceback", JStr "Traceback")])) 0)
     "build_sdist" kwargs0
     (state0 (cpython3 (Some (JObj [("unsupported", JBool true);
                                    ("traceback", JStr "Traceback")])) 0)
        None)).1
  = Raise (UnsupportedOperation (JStr "Traceback")).
Proof.
  refine (proj1 (hook_reports_failure
            (cpython3 (Some (JObj [("unsupported", JBool true);
                                   ("traceback", JStr "Traceback")])) 0)
            "build_sdist" kwargs0
            (state0 (cpython3 (Some (JObj [("unsupported", JBool true);
                                           ("traceback", JStr "Traceback")])) 0)
               None)
            environ0 (JStr "Traceback")
            (<["/tmp/tmpk3x9/output.json"
               := File (JObj [("unsupported", JBool true);
                              ("traceback", JStr "Traceback")])]>
               (fs (launch_world py0 kwargs0 (state0 py0 None))))
            [("unsupported", JBool true); ("traceback", JStr "Traceback")]
            _ _ _ _ _ _) _).
  - reflexivity.
  - reflexivity.
  - vm_compute. reflexivity.
  - reflexivity.
  - eexists. vm_compute. reflexivity.
  - vm_compute. reflexivity.
  - reflexivity.
Defined.

(** X18. A block under [subprocess_runner(r)] that returns: its value is
    the value of the [with] statement, the runner installed afterwards is
    the one installed before, and the rest of the caller, the world and the
    record of launches are as the block left them. *)
Theorem override_restored_on_return {A : Type} (r : runner)
    (body : unit -> M A) (s s2 : state) (a : A) :
  body tt (overridden r s) = (Ret a, s2) ->
  (with_ (subprocess_runner r) body s).1 = Ret (Some a)
  ∧ _subprocess_runner (this (with_ (subprocess_runner r) body s).2)
    = _subprocess_runner (this s)
  ∧ source_dir (this (with_ (subprocess_runner r) body s).2)
    = source_dir (this s2)
  ∧ build_backend (this (with_ (subprocess_runner r) body s).2)
    = build_backend (this s2)
  ∧ backend_path (this (with_ (subprocess_runner r) body s).2)
    = backend_path (this s2)
  ∧ world (with_ (subprocess_runner r) body s).2 = world s2
  ∧ launched (with_ (subprocess_runner r) body s).2 = launched s2.
Proof.
  intros H. rewrite (subprocess_runner_restores r body s s2 a H).
  repeat split.
Qed.

Lemma override_restored_on_return_witness :
  _subprocess_runner
    (this (with_ (subprocess_runner (failing_runner (RunnerError "boom")))
             (fun _ => mret tt) (state0 py0 None)).2)
  = default_subprocess_runner py0.
Proof.
  refine (proj1 (proj2
            (override_restored_on_return (failing_runner (RunnerError "boom"))
               (fun _ => mret tt) (state0 py0 None)
               (overridden (failing_runner (RunnerError "boom")) (state0 py0 None))
               tt _))).
  reflexivity.
Defined.

Lemma filter_below_lookup (td p : string) (m : gmap string node) :
  filter (fun kv : string * node => below td kv.1 = false) m !! p
  = if below td p then None else m !! p.
Proof.
  destruct (below td p) eqn:B.
  - apply map_lookup_filter_None. right. intros x _. simpl. congruence.
  - destruct (m !! p) as [x |] eqn:E.
    + by apply map_lookup_filter_Some_2.
    + apply map_lookup_filter_None. by left.
Qed.

(** X19. The filesystem after a hook call, when the runner left the scratch
    directory in place: the scratch directory and everything below it are
    gone, and every other path is as the runner left it, whether the runner
    returned or raised and whatever the output file was. *)
Theorem call_hook_filesystem (py : Runtime) (hook_name : string)
    (kwargs : list (string * json)) (s : state) (env : gmap string string)
    (o : outcome unit) (w2 : World) :
  hook_environ py (this s) s = (Ret env, s) ->
  fs (world s) !! scratch py s = None ->
  _subprocess_runner (this s) (hook_cmd py hook_name s)
    (Some (source_dir (this s))) (Some env) (launch_world py kwargs s)
  = (o, w2) ->
  is_Some (fs w2 !! scratch py s) ->
  ∀ p, fs (world (_call_hook py hook_name kwargs s).2) !! p
       = if below (scratch py s) p then None else fs w2 !! p.
Proof.
  intros Henv Hnew Hrun [n Hdir] p.
  rewrite <- filter_below_lookup.
  unfold _call_hook, mbind, M_bind, get_self. rewrite Henv.
  unfold with_, tempdir, mbind, M_bind, mkdtemp, mret, M_ret.
  fold (scratch py s). rewrite Hnew.
  unfold write_json, call_runner. simpl.
  destruct (_subprocess_runner (this s) _ _ _ _) as [o' w'] eqn:E.
  change (_subprocess_runner (this s) (hook_cmd py hook_name s)
            (Some (source_dir (this s))) (Some env)
            (launch_world py kwargs s) = (o', w')) in E.
  rewrite Hrun in E. symmetry in E. simplify_eq.
  unfold read_json, classify, try_finally, rmtree, yield_, raise, mret, M_ret.
  destruct o as [[] | e]; simpl; [| rewrite Hdir; reflexivity].
  destruct (fs w2 !! posixpath.join (scratch py s) "output.json")
    as [[| data] |]; simpl; rewrite ?Hdir; try reflexivity.
  destruct data; simpl; rewrite ?Hdir; try reflexivity.
  repeat match goal with
         | |- context [truthy ?x] => destruct (truthy x)
         end;
    try destruct (dict_get members "return_val");
    simpl; rewrite Hdir; reflexivity.
Qed.

Lemma call_hook_filesystem_witness :
  fs (world (_call_hook py0 "build_sdist" kwargs0 (state0 py0 None)).2)
    !! "/tmp/tmpk3x9/input.json" = None.
Proof.
  refine (call_hook_filesystem py0 "build_sdist" kwargs0 (state0 py0 None)
            environ0 (Ret tt)
            (default_subprocess_runner py0
               (hook_cmd py0 "build_sdist" (state0 py0 None))
               (Some "/proj") (Some environ0)
               (launch_world py0 kwargs0 (state0 py0 None))).2
            _ _ _ _ "/tmp/tmpk3x9/input.json").
  - reflexivity.
  - vm_compute. reflexivity.
  - vm_compute. reflexivity.
  - eexists. vm_compute. reflexivity.
Defined.
